(** * generate_graph.py: the CSV reading loop and the per-method grouping

    A shallow embedding of [src/scripts/generate_graph.py].  The script
    reads the lines of a benchmark CSV, turns every line after the header
    into a row (a dict with six keys), builds a pandas DataFrame from the
    rows and, for every distinct method, selects the rows of that method
    and plots them.

    Conventions of the embedding.
    - A Python [str] is a Rocq [string]; a character stands for the code
      point with the same number (0 to 255).
    - A raised exception is the [Raise] outcome of [result]; the script has
      no [try], so the first exception ends the run.
    - A Python [float] is the rational number its binary64 value stands
      for, or an infinity, or NaN ([pyfloat]).
    - The builtins [int] and [float] follow CPython 3.11; the pandas
      operations used by the script are modelled from their documented
      behaviour.
    - What a call to matplotlib raises by itself is not modelled: [main]
      and [script] describe the loops and the run as long as these calls
      return. *)

From Stdlib Require Import ZArith QArith Ascii String List Lia.
From stdpp Require Import base option list strings gmap.

#[local] Set Warnings "-clear-no-such-hyp".

Local Open Scope string_scope.
Local Open Scope Z_scope.
Local Open Scope list_scope.

(** ** Exceptions and outcomes *)

Inductive exn : Type :=
| ValueError
| IndexError
| KeyError.

Inductive result (A : Type) : Type :=
| Ok (a : A)
| Raise (e : exn).

Arguments Ok {A} a.
Arguments Raise {A} e.

#[global] Instance exn_eq_dec : EqDecision exn.
Proof. solve_decision. Defined.

#[global] Instance result_ret : MRet result := fun A a => Ok a.

#[global] Instance result_bind : MBind result := fun A B f m =>
  match m with
  | Ok a => f a
  | Raise e => Raise e
  end.

#[global] Instance result_fmap : FMap result := fun A B f m =>
  match m with
  | Ok a => Ok (f a)
  | Raise e => Raise e
  end.

Definition is_Ok {A} (m : result A) : bool :=
  match m with
  | Ok _ => true
  | Raise _ => false
  end.

(** [mapM] for [result]: left to right, the first exception wins. *)
Fixpoint result_mapM {A B} (f : A → result B) (l : list A) : result (list B) :=
  match l with
  | [] => Ok []
  | x :: l' => y ← f x; ys ← result_mapM f l'; Ok (y :: ys)
  end.

(** ** Python strings *)

Module PyStr.

(** The characters [str.isspace] accepts, among code points 0 to 255:
    tab to carriage return, the four separators 0x1c to 0x1f, the space,
    NEL (0x85) and the no-break space (0xa0). *)
Definition is_space (c : ascii) : bool :=
  let n := nat_of_ascii c in
  ((9 <=? n) && (n <=? 13) || (28 <=? n) && (n <=? 32)
   || (n =? 133) || (n =? 160))%nat.

Fixpoint lstrip (s : string) : string :=
  match s with
  | String c s' => if is_space c then lstrip s' else s
  | EmptyString => EmptyString
  end.

Fixpoint rstrip (s : string) : string :=
  match s with
  | EmptyString => EmptyString
  | String c s' =>
      match rstrip s' with
      | EmptyString => if is_space c then EmptyString else String c EmptyString
      | r => String c r
      end
  end.

(** [s.strip()] *)
Definition strip (s : string) : string := rstrip (lstrip s).

(** [s.split(sep)] for a one-character separator: every occurrence
    separates, the result is never empty, [''.split(',')] is [['']]. *)
Fixpoint split (sep : ascii) (s : string) : list string :=
  match s with
  | EmptyString => [EmptyString]
  | String c s' =>
      if Ascii.eqb c sep then EmptyString :: split sep s'
      else match split sep s' with
           | t :: ts => String c t :: ts
           | [] => [String c EmptyString]
           end
  end.

(** [s.replace(old, new)] for one-character [old] and [new]. *)
Fixpoint replace (old new : ascii) (s : string) : string :=
  match s with
  | EmptyString => EmptyString
  | String c s' =>
      String (if Ascii.eqb c old then new else c) (replace old new s')
  end.

(** [sep.join(l)] *)
Fixpoint join (sep : ascii) (l : list string) : string :=
  match l with
  | [] => EmptyString
  | [t] => t
  | t :: l' => (t ++ String sep (join sep l'))%string
  end.

(** [c in s] *)
Fixpoint contains (c : ascii) (s : string) : bool :=
  match s with
  | EmptyString => false
  | String d s' => Ascii.eqb d c || contains c s'
  end.

(** [l[i]] for a constant index [i >= 0]. *)
Definition getitem {A} (l : list A) (i : nat) : result A :=
  match l !! i with
  | Some x => Ok x
  | None => Raise IndexError
  end.

End PyStr.

(** ** The builtins [int] and [float] *)

Module PyNum.

Definition is_digit (c : ascii) : bool :=
  let n := nat_of_ascii c in ((48 <=? n) && (n <=? 57))%nat.

Definition digit_value (c : ascii) : Z := Z.of_nat (nat_of_ascii c) - 48.

(** The tail [(["_"] digit)*] of a [digitpart]: an underscore is read
    only when a digit follows it. *)
Fixpoint digits_tail (s : string) : list Z * string :=
  match s with
  | String c s' =>
      if is_digit c then
        let '(ds, r) := digits_tail s' in (digit_value c :: ds, r)
      else if Ascii.eqb c "_" then
        match s' with
        | String d s'' =>
            if is_digit d then
              let '(ds, r) := digits_tail s'' in (digit_value d :: ds, r)
            else ([], s)
        | EmptyString => ([], s)
        end
      else ([], s)
  | EmptyString => ([], EmptyString)
  end.

(** [digitpart ::= digit (["_"] digit)*] *)
Definition digitpart (s : string) : option (list Z * string) :=
  match s with
  | String c s' =>
      if is_digit c then
        let '(ds, r) := digits_tail s' in Some (digit_value c :: ds, r)
      else None
  | EmptyString => None
  end.

Definition digits_value (ds : list Z) : Z :=
  fold_left (fun acc d => 10 * acc + d) ds 0.

(** An optional sign: [true] for a minus. *)
Definition sign (s : string) : bool * string :=
  match s with
  | String "+" s' => (false, s')
  | String "-" s' => (true, s')
  | _ => (false, s)
  end.

Definition signed (neg : bool) (z : Z) : Z := if neg then - z else z.

(** The whitespace [int] and [float] skip around a number: tab to
    carriage return and the space, and NEL (0x85) and the no-break space
    (0xa0), which they first turn into a space.  The separators 0x1c to
    0x1f, which [str.strip] removes, are not skipped. *)
Definition is_num_space (c : ascii) : bool :=
  let n := nat_of_ascii c in
  ((9 <=? n) && (n <=? 13) || (n =? 32) || (n =? 133) || (n =? 160))%nat.

Fixpoint num_lstrip (s : string) : string :=
  match s with
  | String c s' => if is_num_space c then num_lstrip s' else s
  | EmptyString => EmptyString
  end.

Fixpoint num_rstrip (s : string) : string :=
  match s with
  | EmptyString => EmptyString
  | String c s' =>
      match num_rstrip s' with
      | EmptyString =>
          if is_num_space c then EmptyString else String c EmptyString
      | r => String c r
      end
  end.

Definition num_strip (s : string) : string := num_rstrip (num_lstrip s).

(** The most digits [int] converts (CPython 3.11, the default of
    [sys.set_int_max_str_digits]); more raise [ValueError]. *)
Definition max_str_digits : nat := 4300.

(** [int(s)], base 10: surrounding whitespace, an optional sign, one
    [digitpart] of at most [max_str_digits] digits, nothing else. *)
Definition py_int (s : string) : result Z :=
  let '(neg, s1) := sign (num_strip s) in
  match digitpart s1 with
  | Some (ds, EmptyString) =>
      if (length ds <=? max_str_digits)%nat
      then Ok (signed neg (digits_value ds))
      else Raise ValueError
  | _ => Raise ValueError
  end.

(** A float is the rational number a binary64 value stands for, or an
    infinity, or NaN.  (The sign of a zero is not kept.) *)
Inductive pyfloat : Type :=
| Finite (q : Q)
| Infinity (negative : bool)
| NaN.

(** The integer nearest to [n / d] for [d > 0], ties to the even one. *)
Definition round_half_even (n d : Z) : Z :=
  let q := n / d in
  match 2 * (n mod d) ?= d with
  | Lt => q
  | Gt => q + 1
  | Eq => if Z.even q then q else q + 1
  end.

(** [2 ^ k <= n / d], for [n, d > 0] and any [k]. *)
Definition pow2_le (k n d : Z) : bool :=
  if 0 <=? k then d * 2 ^ k <=? n else d <=? n * 2 ^ (- k).

(** The binary64 value nearest to [n / d] for [n, d > 0] (IEEE 754, round
    to nearest, ties to even): a 53-bit significand [m] and an exponent
    [e >= -1074] with value [m * 2 ^ e], or an infinity from [2 ^ 1024]
    on. *)
Definition binary64 (negative : bool) (n d : Z) : pyfloat :=
  let k := Z.log2 n - Z.log2 d in
  let l := if pow2_le k n d then k else k - 1 in
  let e := Z.max (l - 52) (- 1074) in
  let m := if 0 <=? e then round_half_even n (d * 2 ^ e)
           else round_half_even (n * 2 ^ (- e)) d in
  if (0 <=? e) && (2 ^ 1024 <=? m * 2 ^ e) then Infinity negative
  else
    let q := if 0 <=? e then Qmake (m * 2 ^ e) 1
             else Qred (Qmake m (Z.to_pos (2 ^ (- e)))) in
    Finite (if negative then Qopp q else q).

(** The float of the decimal [m * 10 ^ e] with [m] written in [digits]
    digits.  Decimals beyond the range of binary64 are settled without
    computing the power of ten: from [10 ^ 400] on they are infinite, and
    below [10 ^ (-400)] they are zero. *)
Definition float_of_decimal (negative : bool) (digits : nat) (m e : Z)
  : pyfloat :=
  if m =? 0 then Finite 0
  else if 400 <? e then Infinity negative
  else if e + Z.of_nat digits <? - 400 then Finite 0
  else if 0 <=? e then binary64 negative (m * 10 ^ e) 1
  else binary64 negative m (10 ^ (- e)).

Definition lower (c : ascii) : ascii :=
  let n := nat_of_ascii c in
  if ((65 <=? n) && (n <=? 90))%nat then ascii_of_nat (n + 32) else c.

Fixpoint lower_string (s : string) : string :=
  match s with
  | EmptyString => EmptyString
  | String c s' => String (lower c) (lower_string s')
  end.

(** [number ::= [digitpart] "." digitpart | digitpart ["."]]: the digits
    before the point, the digits after it, and what is left. *)
Definition number (s : string) : option (list Z * list Z * string) :=
  match digitpart s with
  | Some (ip, String "." r) =>
      match digitpart r with
      | Some (fp, r') => Some (ip, fp, r')
      | None => Some (ip, [], r)
      end
  | Some (ip, r) => Some (ip, [], r)
  | None =>
      match s with
      | String "." r =>
          match digitpart r with
          | Some (fp, r') => Some ([], fp, r')
          | None => None
          end
      | _ => None
      end
  end.

(** [exponent ::= ("e" | "E") [sign] digitpart] *)
Definition exponent (s : string) : option (Z * string) :=
  match s with
  | String c r =>
      if Ascii.eqb (lower c) "e" then
        let '(neg, r1) := sign r in
        match digitpart r1 with
        | Some (ds, r2) => Some (signed neg (digits_value ds), r2)
        | None => None
        end
      else None
  | EmptyString => None
  end.

(** [floatnumber ::= number [exponent]], up to the end of the string: the
    digits of the number and the power of ten they are multiplied by. *)
Definition floatnumber (s : string) : option (list Z * Z) :=
  match number s with
  | Some (ip, fp, EmptyString) => Some (ip ++ fp, - Z.of_nat (length fp))
  | Some (ip, fp, r) =>
      match exponent r with
      | Some (e, EmptyString) => Some (ip ++ fp, e - Z.of_nat (length fp))
      | _ => None
      end
  | None => None
  end.

(** [float(s)]: surrounding whitespace, an optional sign, then [inf],
    [infinity] or [nan] in any case, or a [floatnumber], rounded to
    binary64. *)
Definition py_float (s : string) : result pyfloat :=
  let '(neg, s1) := sign (num_strip s) in
  let w := lower_string s1 in
  if bool_decide (w = "inf" ∨ w = "infinity") then Ok (Infinity neg)
  else if bool_decide (w = "nan") then Ok NaN
  else match floatnumber s1 with
       | Some (ds, e) =>
           Ok (float_of_decimal neg (length ds) (digits_value ds) e)
       | None => Raise ValueError
       end.

End PyNum.

(** ** The script *)

Import PyStr PyNum.

Definition comma : ascii := ",".
Definition period : ascii := ".".

(** The dict built for one line; the fields are its keys
    ['Size'], ['Method'], ['Compute Time (ms)'], ['Total Time (ms)'],
    ['Memory Usage (MB)'] and ['GFlops']. *)
Record row : Type := mk_row {
  Size : Z;
  Method : string;
  Compute_Time : pyfloat;
  Total_Time : pyfloat;
  Memory_Usage : pyfloat;
  GFlops : pyfloat
}.

Definition row_keys : list string :=
  ["Size"; "Method"; "Compute Time (ms)"; "Total Time (ms)";
   "Memory Usage (MB)"; "GFlops"].

(** [tokens = line.strip().split(',')] *)
Definition tokens (line : string) : list string :=
  split comma (strip line).

(** [float(tokens[i].replace(',', '.'))] *)
Definition float_field (tokens : list string) (i : nat) : result pyfloat :=
  t ← getitem tokens i; py_float (replace comma period t).

(** The dict display of the loop body, its values evaluated in the order
    they are written. *)
Definition row_of_tokens (tokens : list string) : result row :=
  size ← (t ← getitem tokens 0; py_int t);
  method ← getitem tokens 1;
  compute ← float_field tokens 2;
  total ← float_field tokens 4;
  memory ← float_field tokens 6;
  gflops ← float_field tokens 8;
  Ok (mk_row size method compute total memory gflops).

Definition row_of_line (line : string) : result row :=
  row_of_tokens (tokens line).

(** [for line in lines[1:]: ...; data.append(row)], with [data] as the
    state of the loop. *)
Fixpoint read_loop (lines : list string) (data : list row)
  : result (list row) :=
  match lines with
  | [] => Ok data
  | line :: rest => r ← row_of_line line; read_loop rest (data ++ [r])
  end.

(** From [header = lines[0].strip().split(',')] to the end of the loop. *)
Definition read_csv (lines : list string) : result (list row) :=
  header ← (l0 ← getitem lines 0; Ok (split comma (strip l0)));
  read_loop (drop 1 lines) [].

(** ** pandas: the frame, its columns, [unique] and boolean indexing *)

(** A frame is its column labels and its rows, in order. *)
Record DataFrame : Type := mk_df {
  columns : list string;
  rows : list row
}.

(** [pd.DataFrame(data)] for a list of dicts: the columns are the keys of
    the dicts, so a frame built from no dict at all has no column. *)
Definition pd_DataFrame (data : list row) : DataFrame :=
  mk_df (match data with [] => [] | _ :: _ => row_keys end) data.

(** [df[key]] for a column label: a missing label raises [KeyError]. *)
Definition column {A} (df : DataFrame) (key : string) (field : row → A)
  : result (list A) :=
  if bool_decide (key ∈ columns df) then Ok (field <$> rows df)
  else Raise KeyError.

(** [Series.unique()]: one pass with a hash set of the values met so far;
    a value is emitted the first time it is met. *)
Fixpoint unique_from (seen : gset string) (l : list string) : list string :=
  match l with
  | [] => []
  | x :: l' =>
      if bool_decide (x ∈ seen) then unique_from seen l'
      else x :: unique_from ({[x]} ∪ seen) l'
  end.

Definition unique (l : list string) : list string := unique_from ∅ l.

(** [series == value], elementwise. *)
Definition eq_mask (col : list string) (value : string) : list bool :=
  (fun x => bool_decide (x = value)) <$> col.

(** The rows at which the mask is [True], in the order of the frame. *)
Fixpoint select (rs : list row) (mask : list bool) : list row :=
  match rs, mask with
  | r :: rs', b :: mask' =>
      if b then r :: select rs' mask' else select rs' mask'
  | _, _ => []
  end.

(** [df[mask]] for a boolean mask: a mask of the wrong length raises. *)
Definition getitem_mask (df : DataFrame) (mask : list bool)
  : result DataFrame :=
  if bool_decide (length mask = length (rows df))
  then Ok (mk_df (columns df) (select (rows df) mask))
  else Raise ValueError.

(** [method_data = df[df['Method'] == method]] *)
Definition method_data (df : DataFrame) (method : string)
  : result DataFrame :=
  col ← column df "Method" Method;
  getitem_mask df (eq_mask col method).

(** ** The grouping and the two plotting loops *)

Definition colors : list string :=
  ["#2ecc71"; "#e74c3c"; "#3498db"; "#f1c40f"].

Definition markers : list string := ["o"; "s"; "^"; "D"].

(** [zip(a, b, c)]: as long as the shortest of the three. *)
Fixpoint zip3 {A B C} (a : list A) (b : list B) (c : list C)
  : list (A * B * C) :=
  match a, b, c with
  | x :: a', y :: b', z :: c' => (x, y, z) :: zip3 a' b' c'
  | _, _, _ => []
  end.

(** The grouping the two loops share: for every method that
    [zip(df['Method'].unique(), colors, markers)] yields, in that order,
    the rows of its [method_data].  The palette has four entries, so these
    are the first four distinct methods at most. *)
Definition Dataset : Type := list (string * list row).

Definition dataset (df : DataFrame) : result Dataset :=
  methods ← unique <$> column df "Method" Method;
  result_mapM (fun '(method, color, marker) =>
                 md ← method_data df method; Ok (method, rows md))
              (zip3 methods colors markers).

(** The arguments of one [ax.plot] call. *)
Record plot_call : Type := mk_plot {
  plot_x : list Z;
  plot_y : list pyfloat;
  plot_marker : string;
  plot_label : string;
  plot_color : string
}.

(** [for method, color, marker in zip(df['Method'].unique(), colors,
    markers): ...] for the column [y_key] on the vertical axis: the
    arguments of the [ax.plot] calls of a loop that completes. *)
Definition plot_loop (df : DataFrame) (y_key : string)
    (y_field : row → pyfloat) : result (list plot_call) :=
  methods ← unique <$> column df "Method" Method;
  result_mapM (fun '(method, color, marker) =>
                 md ← method_data df method;
                 x ← column md "Size" Size;
                 y ← column md y_key y_field;
                 Ok (mk_plot x y marker method color))
              (zip3 methods colors markers).

(** The script from the first line read to the last [plot] call. *)
Definition main (lines : list string)
  : result (list plot_call * list plot_call) :=
  data ← read_csv lines;
  let df := pd_DataFrame data in
  p1 ← plot_loop df "Compute Time (ms)" Compute_Time;
  p2 ← plot_loop df "GFlops" GFlops;
  Ok (p1, p2).

(** Reading followed by grouping. *)
Definition pipeline (lines : list string) : result Dataset :=
  data ← read_csv lines;
  dataset (pd_DataFrame data).

(** ** The calls to matplotlib *)

(** The two panels made by [plt.subplots(1, 2, ...)]. *)
Inductive axes : Type :=
| ax1
| ax2.

(** A call to matplotlib, with the arguments the script passes. *)
Inductive event : Type :=
| E_style_use (style : string)
| E_subplots (nrows ncols : Z) (figsize : Z * Z)
| E_plot (ax : axes) (call : plot_call) (linewidth markersize : Z)
| E_set_xlabel (ax : axes) (text : string) (fontsize : Z)
| E_set_ylabel (ax : axes) (text : string) (fontsize : Z)
| E_set_title (ax : axes) (text : string) (fontsize : Z)
| E_set_yscale (ax : axes) (scale : string)
| E_grid (ax : axes) (visible : bool) (which ls : string) (alpha : Q)
| E_legend (ax : axes) (fontsize : Z) (loc : string)
| E_tick_params (ax : axes) (labelsize : Z)
| E_tight_layout (pad : Q)
| E_savefig (path : string) (dpi : Z) (bbox_inches facecolor : string)
| E_close.

(** A statement of the script: it extends the trace of the calls made so
    far and returns or raises.  The calls themselves are taken to return. *)
Definition io (A : Type) : Type := list event → list event * result A.

#[global] Instance io_ret : MRet io := fun A a tr => (tr, Ok a).

#[global] Instance io_bind : MBind io := fun A B f m tr =>
  match m tr with
  | (tr', Ok a) => f a tr'
  | (tr', Raise e) => (tr', Raise e)
  end.

Definition emit (ev : event) : io unit := fun tr => (tr ++ [ev], Ok tt).

Definition lift {A} (r : result A) : io A := fun tr => (tr, r).

Definition output_path : string :=
  "c:\Users\grass\Desktop\P1\MatrixProd\docs\grafica.png".

Definition n_tilde : string := String (ascii_of_nat 241) EmptyString.
Definition o_acute : string := String (ascii_of_nat 243) EmptyString.

Definition label_size : string := ("Tama" ++ n_tilde ++ "o de Matriz")%string.
Definition label_time : string :=
  ("Tiempo de Computaci" ++ o_acute ++ "n (ms)")%string.
Definition title_time : string :=
  ("Tiempo de Computaci" ++ o_acute ++ "n vs Tama" ++ n_tilde ++ "o")%string.
Definition label_gflops : string := "Rendimiento (GFlops)".
Definition title_gflops : string :=
  ("Rendimiento vs Tama" ++ n_tilde ++ "o")%string.

(** The body of a plotting loop, for the triples left to visit. *)
Fixpoint plot_each (ax : axes) (df : DataFrame) (y_key : string)
    (y_field : row → pyfloat) (l : list (string * string * string))
  : io unit :=
  match l with
  | [] => mret tt
  | (method, color, marker) :: rest =>
      md ← lift (method_data df method);
      x ← lift (column md "Size" Size);
      y ← lift (column md y_key y_field);
      _ ← emit (E_plot ax (mk_plot x y marker method color) 2 6);
      plot_each ax df y_key y_field rest
  end.

(** One plotting loop on one panel. *)
Definition plot_panel (ax : axes) (df : DataFrame) (y_key : string)
    (y_field : row → pyfloat) : io unit :=
  methods ← lift (unique <$> column df "Method" Method);
  plot_each ax df y_key y_field (zip3 methods colors markers).

(** The whole script after [f.readlines()], statement by statement. *)
Definition script (lines : list string) : io unit :=
  data ← lift (read_csv lines);
  let df := pd_DataFrame data in
  _ ← emit (E_style_use "bmh");
  _ ← emit (E_subplots 1 2 (16, 7));
  _ ← plot_panel ax1 df "Compute Time (ms)" Compute_Time;
  _ ← emit (E_set_xlabel ax1 label_size 12);
  _ ← emit (E_set_ylabel ax1 label_time 12);
  _ ← emit (E_set_title ax1 title_time 14);
  _ ← emit (E_set_yscale ax1 "log");
  _ ← emit (E_grid ax1 true "both" "-" (1 # 5));
  _ ← emit (E_legend ax1 10 "upper left");
  _ ← emit (E_tick_params ax1 10);
  _ ← plot_panel ax2 df "GFlops" GFlops;
  _ ← emit (E_set_xlabel ax2 label_size 12);
  _ ← emit (E_set_ylabel ax2 label_gflops 12);
  _ ← emit (E_set_title ax2 title_gflops 14);
  _ ← emit (E_grid ax2 true "both" "-" (1 # 5));
  _ ← emit (E_legend ax2 10 "upper left");
  _ ← emit (E_tick_params ax2 10);
  _ ← emit (E_tight_layout (2 # 1));
  _ ← emit (E_savefig output_path 300 "tight" "white");
  emit E_close.

(** A run: the calls made, and how the script ended. *)
Definition run_script (lines : list string) : list event * result unit :=
  script lines [].

(** ** Specification-side definitions *)

(** A data line the loop body accepts: at least nine fields, a size that
    [int] reads and four numeric fields that [float] reads. *)
Definition well_formed (line : string) : bool :=
  let ts := tokens line in
  (9 <=? length ts)%nat
  && is_Ok (t ← getitem ts 0; py_int t)
  && is_Ok (float_field ts 2)
  && is_Ok (float_field ts 4)
  && is_Ok (float_field ts 6)
  && is_Ok (float_field ts 8).

(** The loop body without the substitution of the decimal separator:
    [float(tokens[i])] in place of [float(tokens[i].replace(',', '.'))]. *)
Definition raw_float_field (tokens : list string) (i : nat)
  : result pyfloat :=
  t ← getitem tokens i; py_float t.

Definition raw_row_of_tokens (tokens : list string) : result row :=
  size ← (t ← getitem tokens 0; py_int t);
  method ← getitem tokens 1;
  compute ← raw_float_field tokens 2;
  total ← raw_float_field tokens 4;
  memory ← raw_float_field tokens 6;
  gflops ← raw_float_field tokens 8;
  Ok (mk_row size method compute total memory gflops).

Definition raw_row_of_line (line : string) : result row :=
  raw_row_of_tokens (tokens line).

(** Two token lists that differ at most in the fields 3 and 5. *)
Definition same_but_3_5 (ts1 ts2 : list string) : Prop :=
  length ts1 = length ts2 ∧
  ∀ i : nat, i ≠ 3%nat → i ≠ 5%nat → ts1 !! i = ts2 !! i.

(** A line with the text of its fields 3 and 5 replaced. *)
Definition with_fields_3_5 (a b : string) (line : string) : string :=
  join comma (<[3%nat := a]> (<[5%nat := b]> (split comma line))).

(** What [strip] does to the fields of a line: the first loses its leading
    whitespace, the last its trailing whitespace. *)
Definition strip_first (ts : list string) : list string :=
  match ts with
  | t :: ts' => lstrip t :: ts'
  | [] => []
  end.

Fixpoint strip_last (ts : list string) : list string :=
  match ts with
  | [] => []
  | [t] => [rstrip t]
  | t :: ts' => t :: strip_last ts'
  end.






(** The number of rows of a method, and the contribution of one row. *)
Definition group_size (data : list row) (m : string) : nat :=
  length (filter (fun r => Method r = m) data).

Definition indicator (a m : string) : nat := if decide (a = m) then 1 else 0.

(** The outcome the specification asks for when a line is malformed: a
    dataset exists and holds the record of every line that can be read. *)
Definition skips_malformed (lines : list string) : Prop :=
  ∃ ds, pipeline lines = Ok ds ∧
        ∀ l r, l ∈ drop 1 lines → row_of_line l = Ok r →
               ∃ m s, (m, s) ∈ ds ∧ r ∈ s.

(** ** Sample inputs *)

Definition nl : string := String (ascii_of_nat 10) EmptyString.
Definition dquote : string := String (ascii_of_nat 34) EmptyString.

Definition header_line : string :=
  ("Size,Method,Compute,Unused,Total,Unused,Memory,Unused,GFlops" ++ nl)%string.

Definition naive_line : string := ("128,Naive,10,2,12,0,50,0,1" ++ nl)%string.
Definition blocked_line : string := ("256,Blocked,5,2,6,0,40,0,12" ++ nl)%string.
Definition naive_line_2 : string := ("512,Naive,80,2,90,0,70,0,2" ++ nl)%string.
Definition bad_size_line : string := ("abc,Naive,10,2,12,0,50,0,1" ++ nl)%string.
Definition short_line : string := ("128,Naive,10,2" ++ nl)%string.

(** Three data lines of two methods, and what the script makes of them. *)
Definition sample_lines : list string :=
  [header_line; naive_line; blocked_line; naive_line_2].

Definition sample_data : list row :=
  Eval vm_compute in
    match read_csv sample_lines with Ok d => d | Raise _ => [] end.

Definition sample_dataset : Dataset :=
  Eval vm_compute in
    match dataset (pd_DataFrame sample_data) with
    | Ok ds => ds
    | Raise _ => []
    end.

(** The same line twice, with a line of another method in between. *)
Definition repeated_lines : list string :=
  [header_line; naive_line; blocked_line; naive_line].

Definition repeated_data : list row :=
  Eval vm_compute in
    match read_csv repeated_lines with Ok d => d | Raise _ => [] end.

Definition repeated_dataset : Dataset :=
  Eval vm_compute in
    match dataset (pd_DataFrame repeated_data) with
    | Ok ds => ds
    | Raise _ => []
    end.

Definition naive_record : row :=
  mk_row 128 "Naive" (Finite (10 # 1)) (Finite (12 # 1)) (Finite (50 # 1))
         (Finite (1 # 1)).

(** A line whose last number is written [12,5]. *)
Definition comma_gflops_line : string :=
  ("128,Naive,10,0,12,0,50,0,12,5" ++ nl)%string.

(** The same with the number between double quotes. *)
Definition quoted_gflops_line : string :=
  ("128,Naive,10,0,12,0,50,0," ++ dquote ++ "12,5" ++ dquote ++ nl)%string.

(** The line [128,Naive,"10,0",2,"12,0",0,"50,0",0,"1,6"] of the
    specification, and the same line without the quotes. *)
Definition spec_line_quoted : string :=
  ("128,Naive," ++ dquote ++ "10,0" ++ dquote ++ ",2,"
   ++ dquote ++ "12,0" ++ dquote ++ ",0,"
   ++ dquote ++ "50,0" ++ dquote ++ ",0,"
   ++ dquote ++ "1,6" ++ dquote)%string.

Definition spec_line_unquoted : string :=
  "128,Naive,10,0,2,12,0,0,50,0,0,1,6".

(** The record the specification gives for that line. *)
Definition spec_record : row :=
  mk_row 128 "Naive" (Finite (10 # 1)) (Finite (12 # 1)) (Finite (50 # 1))
         (Finite (8 # 5)).

(** ** Further definitions: the plots and the trace *)

#[global] Instance axes_eq_dec : EqDecision axes.
Proof. solve_decision. Defined.

(** Text made of whitespace only. *)
Fixpoint all_space (s : string) : bool :=
  match s with
  | EmptyString => true
  | String c s' => is_space c && all_space s'
  end.

(** A line with a field that [int] or [float] rejects: the size, or one
    of the four numbers. *)
Definition field_rejected (line : string) : Prop :=
  (∃ t, tokens line !! 0%nat = Some t ∧ is_Ok (py_int t) = false) ∨
  (∃ i t, i ∈ [2; 4; 6; 8]%nat ∧ tokens line !! i = Some t ∧
          is_Ok (py_float (replace comma period t)) = false).

(** The positions of a token list the loop body reads. *)
Definition read_positions : list nat := [0; 1; 2; 4; 6; 8]%nat.

(** The rows of a method, in input order. *)
Definition rows_of (data : list row) (m : string) : list row :=
  filter (fun r => Method r = m) data.

(** The [plot] call a loop makes for one triple of [zip]. *)
Definition series_call (data : list row) (y_field : row → pyfloat)
    (t : string * string * string) : plot_call :=
  mk_plot (Size <$> rows_of data t.1.1) (y_field <$> rows_of data t.1.1)
          t.2 t.1.1 t.1.2.

(** The number of points of a panel. *)
Definition points (ps : list plot_call) : nat :=
  sum_list ((fun c => length (plot_x c)) <$> ps).

(** Two rows with the same values in the columns that are plotted. *)
Definition same_plotted (r1 r2 : row) : Prop :=
  Size r1 = Size r2 ∧ Method r1 = Method r2 ∧
  Compute_Time r1 = Compute_Time r2 ∧ GFlops r1 = GFlops r2.

(** The [plot] calls made on a panel, in the order of the trace. *)
Definition plots_on (ax : axes) (tr : list event) : list plot_call :=
  omap (fun ev => match ev with
                  | E_plot a c _ _ => if decide (a = ax) then Some c else None
                  | _ => None
                  end) tr.

Definition is_savefig (ev : event) : bool :=
  match ev with
  | E_savefig _ _ _ _ => true
  | _ => false
  end.

Definition is_plot_on (ax : axes) (ev : event) : bool :=
  match ev with
  | E_plot a _ _ _ => bool_decide (a = ax)
  | _ => false
  end.


(** Five data lines of five methods. *)
Definition five_method_lines : list string :=
  [header_line; "1,A,1,0,1,0,1,0,1"; "2,B,1,0,1,0,1,0,1"; "3,C,1,0,1,0,1,0,1";
   "4,D,1,0,1,0,1,0,1"; "5,E,1,0,1,0,1,0,1"; "6,A,1,0,1,0,1,0,1"].

Definition five_method_data : list row :=
  Eval vm_compute in
    match read_csv five_method_lines with Ok d => d | Raise _ => [] end.


Definition sample_plots : list plot_call * list plot_call :=
  Eval vm_compute in
    match main sample_lines with Ok p => p | Raise _ => ([], []) end.

Definition five_method_plots : list plot_call * list plot_call :=
  Eval vm_compute in
    match main five_method_lines with Ok p => p | Raise _ => ([], []) end.

(** The sample lines with other total times and memory usages. *)
Definition sample_lines_other_totals : list string :=
  [header_line; "128,Naive,10,2,99,0,1e3,0,1"; "256,Blocked,5,2,.5,0,inf,0,12";
   "512,Naive,80,2,7,0,nan,0,2"].

Definition sample_data_other_totals : list row :=
  Eval vm_compute in
    match read_csv sample_lines_other_totals with
    | Ok d => d
    | Raise _ => []
    end.

Definition repeated_plots : list plot_call * list plot_call :=
  Eval vm_compute in
    match main repeated_lines with Ok p => p | Raise _ => ([], []) end.

Definition sample_trace : list event :=
  Eval vm_compute in (run_script sample_lines).1.

Definition carriage_return : string := String (ascii_of_nat 13) EmptyString.

(** ** Strings: splitting leaves no separator behind *)

Lemma split_not_nil sep s : split sep s ≠ [].
Proof.
  destruct s as [|c s]; simpl; [done|].
  destruct (Ascii.eqb c sep); [done|]. by destruct (split sep s).
Qed.

Lemma split_no_sep sep s t : t ∈ split sep s → contains sep t = false.
Proof.
  revert t. induction s as [|c s IH]; simpl; intros t Ht.
  - apply list_elem_of_singleton in Ht. by subst.
  - destruct (Ascii.eqb c sep) eqn:Hc.
    + apply elem_of_cons in Ht as [->|Ht]; [done|by apply IH].
    + destruct (split sep s) as [|t0 ts] eqn:Hs.
      * apply list_elem_of_singleton in Ht. subst. simpl. by rewrite Hc.
      * apply elem_of_cons in Ht as [->|Ht].
        -- simpl. rewrite Hc. apply IH. by left.
        -- apply IH. by right.
Qed.

Lemma replace_absent old new t :
  contains old t = false → replace old new t = t.
Proof.
  induction t as [|c t IH]; simpl; [done|].
  intros [Hc Ht]%orb_false_iff. rewrite Hc. by rewrite IH.
Qed.

Lemma replace_token line t :
  t ∈ tokens line → replace comma period t = t.
Proof. intros Ht. apply replace_absent. by eapply split_no_sep. Qed.

Lemma getitem_elem {A} (l : list A) i x : getitem l i = Ok x → x ∈ l.
Proof.
  unfold getitem. destruct (l !! i) eqn:Hl; [|done].
  intros [= ->]. by eapply list_elem_of_lookup_2.
Qed.

Lemma float_field_raw line i :
  float_field (tokens line) i = raw_float_field (tokens line) i.
Proof.
  unfold float_field, raw_float_field.
  destruct (getitem (tokens line) i) as [t|e] eqn:Hi; simpl; [|done].
  by rewrite (replace_token line t) by by eapply getitem_elem.
Qed.

(** ** The reading loop *)

Lemma result_mapM_Ok {A B} (f : A → result B) l ys :
  result_mapM f l = Ok ys ↔ Forall2 (fun x y => f x = Ok y) l ys.
Proof.
  revert ys. induction l as [|x l IH]; simpl; intros ys.
  - split; [intros [= <-]; constructor|by inversion 1].
  - destruct (f x) as [y|e] eqn:Hx; simpl.
    + destruct (result_mapM f l) as [zs|e]; simpl.
      * split.
        -- intros [= <-]. constructor; [done|by apply IH].
        -- inversion 1 as [|? y' ? zs' Hy Hzs]; subst.
           rewrite Hx in Hy. injection Hy as <-.
           apply IH in Hzs. by injection Hzs as <-.
      * split; [done|].
        inversion 1 as [|? y' ? zs' Hy Hzs]; subst. by apply IH in Hzs.
    + split; [done|]. inversion 1; congruence.
Qed.

Lemma result_mapM_Raise {A B} (f : A → result B) l bad :
  bad ∈ l → is_Ok (f bad) = false → ∃ e, result_mapM f l = Raise e.
Proof.
  induction l as [|x l IH]; simpl; intros Hin Hbad.
  - by apply elem_of_nil in Hin.
  - destruct (f x) as [y|e] eqn:Hx; simpl; [|by eexists].
    apply elem_of_cons in Hin as [->|Hin].
    + by rewrite Hx in Hbad.
    + destruct (IH Hin Hbad) as [e ->]. by eexists.
Qed.

Lemma result_mapM_first_Raise {A B} (f : A → result B) pre bad post e :
  Forall (fun x => is_Ok (f x) = true) pre → f bad = Raise e →
  result_mapM f (pre ++ bad :: post) = Raise e.
Proof.
  intros Hpre Hbad. induction Hpre as [|x pre Hx _ IH]; simpl.
  - by rewrite Hbad.
  - destruct (f x); [|done]. simpl. by rewrite IH.
Qed.

(** The loop with its accumulator is a left-to-right map. *)
Lemma read_loop_mapM lines data :
  read_loop lines data =
  (rs ← result_mapM row_of_line lines; Ok (data ++ rs)).
Proof.
  revert data. induction lines as [|l lines IH]; intros data; simpl.
  - by rewrite app_nil_r.
  - destruct (row_of_line l) as [r|e]; simpl; [|done].
    rewrite IH. destruct (result_mapM row_of_line lines); simpl; [|done].
    by rewrite <- app_assoc.
Qed.

Lemma read_csv_cons header lines :
  read_csv (header :: lines) = result_mapM row_of_line lines.
Proof.
  unfold read_csv. simpl. rewrite drop_0, read_loop_mapM.
  by destruct (result_mapM row_of_line lines).
Qed.

Lemma read_csv_nil : read_csv [] = Raise IndexError.
Proof. reflexivity. Qed.

Lemma read_csv_Ok lines data :
  read_csv lines = Ok data ↔
  lines ≠ [] ∧ Forall2 (fun l r => row_of_line l = Ok r) (drop 1 lines) data.
Proof.
  destruct lines as [|header lines].
  - rewrite read_csv_nil. split; [done|by intros [? _]].
  - rewrite read_csv_cons, result_mapM_Ok. simpl. rewrite drop_0.
    split; [done|by intros [_ ?]].
Qed.

Lemma getitem_lookup {A} (l : list A) i :
  getitem l i = match l !! i with Some x => Ok x | None => Raise IndexError end.
Proof. reflexivity. Qed.

(** A line is read exactly when it is well formed. *)
Lemma row_of_line_well_formed line :
  is_Ok (row_of_line line) = well_formed line.
Proof.
  unfold row_of_line, well_formed, row_of_tokens, float_field.
  generalize (tokens line). intros ts. rewrite !getitem_lookup.
  do 9 (destruct ts as [|? ts];
        [simpl; repeat (match goal with
                        | |- context [py_int ?t] => destruct (py_int t)
                        | |- context [py_float ?t] => destruct (py_float t)
                        end; simpl); done|]).
  simpl.
  repeat (match goal with
          | |- context [py_int ?t] => destruct (py_int t)
          | |- context [py_float ?t] => destruct (py_float t)
          end; simpl); done.
Qed.

Lemma py_int_exn t e : py_int t = Raise e → e = ValueError.
Proof.
  unfold py_int. destruct (sign (num_strip t)) as [neg s1].
  destruct (digitpart s1) as [[ds [|? ?]]|]; try by intros [= <-].
  destruct (length ds <=? max_str_digits)%nat; by intros [= <-].
Qed.

Lemma py_float_exn t e : py_float t = Raise e → e = ValueError.
Proof.
  unfold py_float. destruct (sign (num_strip t)) as [neg s1].
  repeat case_bool_decide; try done.
  destruct (floatnumber s1) as [[ds k]|]; by intros [= <-].
Qed.

(** What the loop body can raise. *)
Lemma row_of_line_exn line e :
  row_of_line line = Raise e → e = ValueError ∨ e = IndexError.
Proof.
  unfold row_of_line, row_of_tokens, float_field.
  generalize (tokens line). intros ts. rewrite !getitem_lookup.
  repeat (match goal with
          | |- context [match ?l !! ?i with _ => _ end] => destruct (l !! i)
          | |- context [py_int ?t] =>
              let H := fresh in
              destruct (py_int t) eqn:H; [|apply py_int_exn in H; subst]
          | |- context [py_float ?t] =>
              let H := fresh in
              destruct (py_float t) eqn:H; [|apply py_float_exn in H; subst]
          end; simpl; try (intros [= <-]; auto); try done).
Qed.

(** ** The frame and the grouping *)

Lemma column_empty {A} key (field : row → A) :
  column (pd_DataFrame []) key field = Raise KeyError.
Proof. reflexivity. Qed.

Lemma column_Method data :
  data ≠ [] → column (pd_DataFrame data) "Method" Method = Ok (Method <$> data).
Proof. by destruct data. Qed.

(** Boolean indexing with an equality mask keeps the matching rows. *)
Lemma select_eq_mask rs m :
  select rs (eq_mask (Method <$> rs) m) = filter (fun r => Method r = m) rs.
Proof.
  induction rs as [|r rs IH]; [done|].
  rewrite filter_cons. unfold eq_mask in *. rewrite !fmap_cons.
  cbn [select]. rewrite IH.
  destruct (decide (Method r = m)) as [H|H].
  - by rewrite bool_decide_eq_true_2.
  - by rewrite bool_decide_eq_false_2.
Qed.

Lemma method_data_rows data m :
  data ≠ [] →
  method_data (pd_DataFrame data) m =
  Ok (mk_df row_keys (filter (fun r => Method r = m) data)).
Proof.
  intros Hd. unfold method_data. rewrite column_Method by done. simpl.
  unfold getitem_mask, eq_mask.
  rewrite bool_decide_eq_true_2 by (simpl; by rewrite !length_fmap).
  simpl. fold (eq_mask (Method <$> data) m). rewrite select_eq_mask.
  by destruct data.
Qed.

Lemma result_mapM_total {A B} (f : A → result B) (g : A → B) l :
  (∀ x, f x = Ok (g x)) → result_mapM f l = Ok (g <$> l).
Proof.
  intros Hf. induction l as [|x l IH]; simpl; [done|].
  by rewrite Hf, IH.
Qed.

(** ** [zip] with the palette *)

Lemma zip3_palette (ms : list string) :
  (fun t => fst (fst t)) <$> zip3 ms colors markers = take 4 ms.
Proof. do 4 (destruct ms as [|? ms]; [done|]). by destruct ms. Qed.

Lemma length_zip3_palette (ms : list string) :
  length (zip3 ms colors markers) = (4 `min` length ms)%nat.
Proof. do 4 (destruct ms as [|? ms]; [done|]). by destruct ms. Qed.

Lemma zip3_lookup {A B C} (a : list A) (b : list B) (c : list C) k t :
  zip3 a b c !! k = Some t →
  a !! k = Some t.1.1 ∧ b !! k = Some t.1.2 ∧ c !! k = Some t.2.
Proof.
  revert b c k. induction a as [|x a IH]; intros [|y b] [|z c] k; try done.
  destruct k as [|k]; simpl.
  - by intros [= <-].
  - apply IH.
Qed.

Lemma zip3_palette_method (ms : list string) t :
  t ∈ zip3 ms colors markers → t.1.1 ∈ ms.
Proof.
  intros (k & Hk)%list_elem_of_lookup_1.
  apply zip3_lookup in Hk as (Hk & _ & _). by eapply list_elem_of_lookup_2.
Qed.

Lemma zip3_fmap_l {A A' B C} (f : A → A') (a : list A) (b : list B)
    (c : list C) :
  zip3 (f <$> a) b c = (fun t => (f t.1.1, t.1.2, t.2)) <$> zip3 a b c.
Proof.
  revert b c. induction a as [|x a IH]; intros [|y b] [|z c]; try done.
  csimpl. by rewrite IH.
Qed.

Lemma zip3_take_palette (ms : list string) :
  zip3 (take 4 ms) colors markers = zip3 ms colors markers.
Proof. do 4 (destruct ms as [|? ms]; [done|]). by destruct ms. Qed.

(** ** The grouping in closed form *)

(** The grouping exists exactly for a non-empty frame, and holds the rows
    of the first four distinct methods. *)
Lemma dataset_nonempty data :
  data ≠ [] →
  dataset (pd_DataFrame data) =
  Ok ((fun m => (m, filter (fun r => Method r = m) data))
        <$> take 4 (unique (Method <$> data))).
Proof.
  intros Hd. unfold dataset. rewrite column_Method by done. simpl.
  rewrite <- zip3_palette, <- list_fmap_compose.
  apply result_mapM_total. intros [[m c] k]. by rewrite method_data_rows.
Qed.

Lemma dataset_empty : dataset (pd_DataFrame []) = Raise KeyError.
Proof. reflexivity. Qed.

Lemma dataset_Ok data ds :
  dataset (pd_DataFrame data) = Ok ds ↔
  data ≠ [] ∧
  ds = (fun m => (m, filter (fun r => Method r = m) data))
         <$> take 4 (unique (Method <$> data)).
Proof.
  destruct data as [|r data].
  - rewrite dataset_empty. split; [done|by intros [? _]].
  - rewrite dataset_nonempty by done. split.
    + by intros [= <-].
    + by intros [_ ->].
Qed.

(** ** [unique]: first occurrences, in order *)

Lemma elem_of_unique_from seen l x :
  x ∈ unique_from seen l ↔ x ∈ l ∧ x ∉ seen.
Proof.
  revert seen. induction l as [|y l IH]; intros seen; simpl.
  - set_solver.
  - case_bool_decide as Hy.
    + rewrite IH. set_solver.
    + rewrite elem_of_cons, IH. destruct (decide (x = y)); set_solver.
Qed.

Lemma NoDup_unique_from seen l : NoDup (unique_from seen l).
Proof.
  revert seen. induction l as [|y l IH]; intros seen; simpl.
  - constructor.
  - case_bool_decide; [done|]. constructor; [|done].
    rewrite elem_of_unique_from. set_solver.
Qed.


Lemma elem_of_unique l x : x ∈ unique l ↔ x ∈ l.
Proof. unfold unique. rewrite elem_of_unique_from. set_solver. Qed.

Lemma NoDup_unique l : NoDup (unique l).
Proof. apply NoDup_unique_from. Qed.




(** ** Counting the rows of the groups *)

Lemma sum_indicator_absent (ms : list string) a :
  a ∉ ms → sum_list (indicator a <$> ms) = 0%nat.
Proof.
  induction ms as [|m ms IH]; csimpl; [done|].
  intros [Hne Hni]%not_elem_of_cons. unfold indicator at 1.
  rewrite decide_False by done. by rewrite IH.
Qed.

Lemma sum_indicator (ms : list string) a :
  NoDup ms → a ∈ ms → sum_list (indicator a <$> ms) = 1%nat.
Proof.
  induction 1 as [|m ms Hm Hnd IH]; csimpl; intros Ha.
  - by apply elem_of_nil in Ha.
  - unfold indicator at 1. destruct (decide (a = m)) as [->|Hne].
    + by rewrite sum_indicator_absent.
    + apply elem_of_cons in Ha as [?|Ha]; [done|]. by rewrite IH.
Qed.

Lemma group_size_cons r data m :
  group_size (r :: data) m = (indicator (Method r) m + group_size data m)%nat.
Proof.
  unfold group_size, indicator. rewrite filter_cons.
  by destruct (decide (Method r = m)).
Qed.

Lemma sum_group_size_nil (ms : list string) :
  sum_list (group_size [] <$> ms) = 0%nat.
Proof. induction ms as [|m ms IH]; csimpl; [done|]. by rewrite IH. Qed.

Lemma sum_group_size_cons (ms : list string) r data :
  sum_list (group_size (r :: data) <$> ms) =
  (sum_list (indicator (Method r) <$> ms)
   + sum_list (group_size data <$> ms))%nat.
Proof.
  induction ms as [|m ms IH]; csimpl; [done|].
  rewrite IH, group_size_cons. lia.
Qed.

Lemma sum_group_lengths (ms : list string) (data : list row) :
  NoDup ms → (∀ r, r ∈ data → Method r ∈ ms) →
  sum_list (group_size data <$> ms) = length data.
Proof.
  intros Hnd. induction data as [|r data IH]; intros Hcover.
  - apply sum_group_size_nil.
  - rewrite sum_group_size_cons, sum_indicator, IH; [done| |done|].
    + intros r' Hr'. apply Hcover. by right.
    + apply Hcover. by left.
Qed.

(** ** The run ends at the first line that cannot be read *)

Lemma pipeline_read_Raise lines e :
  read_csv lines = Raise e → pipeline lines = Raise e ∧ main lines = Raise e.
Proof. intros H. unfold pipeline, main. by rewrite H. Qed.

Lemma read_csv_first_malformed header pre bad post e :
  Forall (fun l => well_formed l = true) pre → row_of_line bad = Raise e →
  read_csv (header :: pre ++ bad :: post) = Raise e.
Proof.
  intros Hpre Hbad. rewrite read_csv_cons.
  apply result_mapM_first_Raise; [|done].
  eapply Forall_impl; [exact Hpre|]. intros l Hl.
  by rewrite row_of_line_well_formed.
Qed.

Lemma read_csv_malformed header lines bad :
  bad ∈ lines → well_formed bad = false →
  ∃ e, (e = ValueError ∨ e = IndexError) ∧
       read_csv (header :: lines) = Raise e.
Proof.
  intros Hin Hbad. rewrite read_csv_cons.
  destruct (result_mapM_Raise row_of_line lines bad Hin) as [e He].
  { by rewrite row_of_line_well_formed. }
  exists e. split; [|done].
  clear Hin Hbad bad. revert He. induction lines as [|l lines IH]; [done|].
  simpl. destruct (row_of_line l) as [r|e'] eqn:Hl; simpl.
  - destruct (result_mapM row_of_line lines); [done|].
    simpl. intros [= ->]. by apply IH.
  - intros [= ->]. by eapply row_of_line_exn.
Qed.

Lemma read_csv_all_well_formed header lines :
  Forall (fun l => well_formed l = true) lines →
  ∃ data, read_csv (header :: lines) = Ok data ∧
          Forall2 (fun l r => row_of_line l = Ok r) lines data.
Proof.
  intros Hall. rewrite read_csv_cons.
  induction Hall as [|l lines Hl _ (data & Hd & Hf)]; simpl.
  - exists []. by split; [|constructor].
  - rewrite <- row_of_line_well_formed in Hl.
    destruct (row_of_line l) as [r|] eqn:Hr; [|done].
    exists (r :: data). simpl. rewrite Hd. simpl.
    split; [done|by constructor].
Qed.

Lemma blank_line_ValueError blank :
  strip blank = EmptyString → row_of_line blank = Raise ValueError.
Proof.
  intros Hb. unfold row_of_line, tokens. by rewrite Hb.
Qed.

(** C1, as the specification states it, fails: with one line that can be
    read followed by one whose size is not a number, the run raises
    [ValueError] and no dataset exists, so the readable line has no record
    anywhere. *)
Lemma C1_counterexample :
  well_formed naive_line = true ∧
  well_formed bad_size_line = false ∧
  pipeline [header_line; naive_line; bad_size_line] = Raise ValueError ∧
  main [header_line; naive_line; bad_size_line] = Raise ValueError ∧
  ¬ skips_malformed [header_line; naive_line; bad_size_line].
Proof.
  split_and!; [by vm_compute|by vm_compute|by vm_compute|by vm_compute|].
  intros (ds & Hds & _). by vm_compute in Hds.
Qed.

(** C1 (amended): an input with a malformed data line (fewer than nine
    fields, or a size or numeric field that [int] or [float] rejects) makes
    the run abort: the reading loop raises [ValueError] or [IndexError],
    and neither a dataset nor a plot is produced, whatever lines that can
    be read the input also holds. *)
Theorem C1_malformed_line_aborts header lines bad :
  bad ∈ lines → well_formed bad = false →
  ∃ e, (e = ValueError ∨ e = IndexError) ∧
       read_csv (header :: lines) = Raise e ∧
       pipeline (header :: lines) = Raise e ∧
       main (header :: lines) = Raise e.
Proof.
  intros Hin Hbad.
  destruct (read_csv_malformed header lines bad Hin Hbad) as (e & He & Hr).
  exists e. split; [done|]. split; [done|]. by apply pipeline_read_Raise.
Qed.

Lemma C1_malformed_line_aborts_witness :
  short_line ∈ [naive_line; short_line; blocked_line] ∧
  well_formed short_line = false ∧
  ∃ e, (e = ValueError ∨ e = IndexError) ∧
       read_csv (header_line :: [naive_line; short_line; blocked_line])
       = Raise e ∧
       pipeline (header_line :: [naive_line; short_line; blocked_line])
       = Raise e ∧
       main (header_line :: [naive_line; short_line; blocked_line])
       = Raise e.
Proof.
  assert (short_line ∈ [naive_line; short_line; blocked_line]) as Hin
    by (right; left).
  assert (well_formed short_line = false) as Hbad by reflexivity.
  split; [exact Hin|]. split; [exact Hbad|].
  exact (C1_malformed_line_aborts header_line _ short_line Hin Hbad).
Defined.

(** C2: the code does not do what the claim says.  [float] applied to
    ["12,5"] after the substitution gives 12.5, but no token ever holds the
    comma: the line is split on it first.  A GFlops number written [12,5]
    is read as 12 (its fraction is the next token, which the row ignores),
    and written between double quotes it makes [float] raise. *)
Theorem C2_comma_decimal_is_split :
  py_float (replace comma period "12,5") = Ok (Finite (25 # 2)) ∧
  tokens comma_gflops_line !! 8%nat = Some "12" ∧
  GFlops <$> row_of_line comma_gflops_line = Ok (Finite (12 # 1)) ∧
  GFlops <$> row_of_line comma_gflops_line ≠ Ok (Finite (25 # 2)) ∧
  row_of_line quoted_gflops_line = Raise ValueError.
Proof. split_and!; by vm_compute. Qed.

(** C3: the code does not do what the claim says.  On a header alone the
    reading loop ends with no row and without an exception, but the frame
    built from no row has no column, so [df['Method']] raises [KeyError]:
    the grouping and the script stop there. *)
Theorem C3_header_only_KeyError header :
  read_csv [header] = Ok [] ∧
  columns (pd_DataFrame []) = [] ∧
  dataset (pd_DataFrame []) = Raise KeyError ∧
  pipeline [header] = Raise KeyError ∧
  main [header] = Raise KeyError.
Proof.
  assert (read_csv [header] = Ok []) as Hr by apply read_csv_cons.
  unfold pipeline, main. rewrite Hr. by split_and!.
Qed.

(** ** Order of the methods *)








(** ** The fields a row is made of *)

(** Every row the loop body builds takes its size from field 0, its method
    from field 1 and its four numbers from the fields 2, 4, 6 and 8. *)
Lemma row_of_line_fields line r :
  row_of_line line = Ok r →
  ∃ t0 t2 t4 t6 t8,
    tokens line !! 0%nat = Some t0 ∧ py_int t0 = Ok (Size r) ∧
    tokens line !! 1%nat = Some (Method r) ∧
    tokens line !! 2%nat = Some t2 ∧
    py_float (replace comma period t2) = Ok (Compute_Time r) ∧
    tokens line !! 4%nat = Some t4 ∧
    py_float (replace comma period t4) = Ok (Total_Time r) ∧
    tokens line !! 6%nat = Some t6 ∧
    py_float (replace comma period t6) = Ok (Memory_Usage r) ∧
    tokens line !! 8%nat = Some t8 ∧
    py_float (replace comma period t8) = Ok (GFlops r).
Proof.
  unfold row_of_line, row_of_tokens, float_field.
  generalize (tokens line). intros ts. rewrite !getitem_lookup.
  destruct (ts !! 0%nat) as [t0|]; simpl; [|done].
  destruct (py_int t0) as [z|] eqn:H0; simpl; [|done].
  destruct (ts !! 1%nat) as [t1|]; simpl; [|done].
  destruct (ts !! 2%nat) as [t2|]; simpl; [|done].
  destruct (py_float (replace comma period t2)) as [f2|] eqn:H2;
    simpl; [|done].
  destruct (ts !! 4%nat) as [t4|]; simpl; [|done].
  destruct (py_float (replace comma period t4)) as [f4|] eqn:H4;
    simpl; [|done].
  destruct (ts !! 6%nat) as [t6|]; simpl; [|done].
  destruct (py_float (replace comma period t6)) as [f6|] eqn:H6;
    simpl; [|done].
  destruct (ts !! 8%nat) as [t8|]; simpl; [|done].
  destruct (py_float (replace comma period t8)) as [f8|] eqn:H8;
    simpl; [|done].
  intros [= <-]. simpl. by exists t0, t2, t4, t6, t8.
Qed.

(** C5: the code does not do what the claim says on the line of the
    specification.  The fields of a row are those the claim lists (see
    [row_of_line_fields]), but the line
    [128,Naive,"10,0",2,"12,0",0,"50,0",0,"1,6"] is split at every comma,
    those of the numbers too: field 2 is a double quote followed by [10],
    [float] raises [ValueError], and the run ends without a dataset.
    Without the quotes the line is read, as another record. *)
Theorem C5_spec_line_is_not_read :
  tokens spec_line_quoted !! 2%nat = Some (dquote ++ "10")%string ∧
  row_of_line spec_line_quoted = Raise ValueError ∧
  pipeline [header_line; spec_line_quoted] = Raise ValueError ∧
  row_of_line spec_line_unquoted =
    Ok (mk_row 128 "Naive" (Finite (10 # 1)) (Finite (2 # 1))
               (Finite (0 # 1)) (Finite (50 # 1))) ∧
  row_of_line spec_line_unquoted ≠ Ok spec_record.
Proof. split_and!; by vm_compute. Qed.

(** ** The plotting loops and the palette *)

Lemma result_mapM_fmap {A B C} (f : A → result B) (g : B → C) (h : A → C) l ys :
  (∀ x y, f x = Ok y → g y = h x) →
  result_mapM f l = Ok ys → g <$> ys = h <$> l.
Proof.
  intros Hf. revert ys. induction l as [|x l IH]; simpl; intros ys.
  - by intros [= <-].
  - destruct (f x) as [y|] eqn:Hx; simpl; [|done].
    destruct (result_mapM f l) as [zs|]; simpl; [|done].
    intros [= <-]. csimpl. by rewrite (Hf x y Hx), (IH zs).
Qed.

(** The loops draw the methods of the grouping in its order, as far as the
    palette of four colours and markers goes: [zip] stops after the fourth
    method. *)
Lemma plot_loop_labels data y_key y_field ps :
  plot_loop (pd_DataFrame data) y_key y_field = Ok ps →
  plot_label <$> ps = take 4 (unique (Method <$> data)).
Proof.
  unfold plot_loop.
  destruct (column (pd_DataFrame data) "Method" Method) as [col|] eqn:Hc;
    simpl; [|done].
  assert (col = Method <$> data) as ->.
  { unfold column in Hc. by destruct (bool_decide _); [injection Hc|]. }
  intros Hps. rewrite <- zip3_palette.
  revert Hps. apply result_mapM_fmap. intros [[m c] k] y Hy. simpl.
  destruct (method_data _ m) as [md|]; simpl in Hy; [|done].
  destruct (column md "Size" Size); simpl in Hy; [|done].
  destruct (column md y_key y_field); simpl in Hy; [|done].
  by injection Hy as <-.
Qed.

(** ** Order and number of the rows of a method *)

(** Two rows of one method keep their relative position in its group, also
    when they are the same row twice. *)
Lemma filter_keeps_order (data : list row) m i j r1 r2 :
  (i < j)%nat → data !! i = Some r1 → data !! j = Some r2 →
  Method r1 = m → Method r2 = m →
  ∃ p q, (p < q)%nat ∧
         filter (fun r => Method r = m) data !! p = Some r1 ∧
         filter (fun r => Method r = m) data !! q = Some r2.
Proof.
  intros Hij Hi Hj H1 H2.
  rewrite <- (take_drop_middle data i r1 Hi).
  assert (drop (S i) data !! (j - S i)%nat = Some r2) as Hj'.
  { rewrite lookup_drop. by replace (S i + (j - S i))%nat with j by lia. }
  rewrite <- (take_drop_middle _ _ r2 Hj').
  set (l1 := take i data). set (l2 := take (j - S i) (drop (S i) data)).
  set (l3 := drop (S (j - S i)) (drop (S i) data)).
  rewrite filter_app, filter_cons_True, filter_app, filter_cons_True by done.
  set (f1 := filter _ l1). set (f2 := filter _ l2).
  exists (length f1), (length f1 + S (length f2))%nat. split_and!.
  - lia.
  - by rewrite list_lookup_middle.
  - rewrite lookup_app_r by lia.
    replace (length f1 + S (length f2) - length f1)%nat
      with (S (length f2)) by lia.
    simpl. by rewrite list_lookup_middle.
Qed.

Lemma dataset_group data ds m s :
  dataset (pd_DataFrame data) = Ok ds → (m, s) ∈ ds →
  m ∈ Method <$> data ∧ s = filter (fun r => Method r = m) data.
Proof.
  intros [_ ->]%dataset_Ok (m' & [= -> ->] & Hm)%list_elem_of_fmap.
  split; [|done]. apply elem_of_unique. by eapply subseteq_take.
Qed.

(** C6: the rows of a method series are the records of the input lines of
    that method, in the order of the lines, each as often as it occurs:
    two lines of the same method, equal or not, give two rows of the
    series, the earlier line first. *)
Theorem C6_series_in_input_order lines data ds :
  read_csv lines = Ok data →
  dataset (pd_DataFrame data) = Ok ds →
  Forall2 (fun l r => row_of_line l = Ok r) (drop 1 lines) data ∧
  ∀ m s, (m, s) ∈ ds →
    s = filter (fun r => Method r = m) data ∧
    sublist s data ∧
    ∀ i j r1 r2, (i < j)%nat → data !! i = Some r1 → data !! j = Some r2 →
                 Method r1 = m → Method r2 = m →
                 ∃ p q, (p < q)%nat ∧ s !! p = Some r1 ∧ s !! q = Some r2.
Proof.
  intros [_ Hrows]%read_csv_Ok Hds. split; [done|].
  intros m s [_ ->]%(dataset_group data ds); [|done]. split_and!.
  - done.
  - apply sublist_filter.
  - intros i j r1 r2. apply filter_keeps_order.
Qed.

Lemma C6_series_in_input_order_witness :
  read_csv repeated_lines = Ok repeated_data ∧
  dataset (pd_DataFrame repeated_data) = Ok repeated_dataset ∧
  repeated_dataset !! 0%nat = Some ("Naive", [naive_record; naive_record]) ∧
  Forall2 (fun l r => row_of_line l = Ok r)
          (drop 1 repeated_lines) repeated_data ∧
  ∀ m s, (m, s) ∈ repeated_dataset →
    s = filter (fun r => Method r = m) repeated_data ∧
    sublist s repeated_data ∧
    ∀ i j r1 r2, (i < j)%nat →
                 repeated_data !! i = Some r1 → repeated_data !! j = Some r2 →
                 Method r1 = m → Method r2 = m →
                 ∃ p q, (p < q)%nat ∧ s !! p = Some r1 ∧ s !! q = Some r2.
Proof.
  assert (read_csv repeated_lines = Ok repeated_data) as H1
    by (vm_compute; reflexivity).
  assert (dataset (pd_DataFrame repeated_data) = Ok repeated_dataset) as H2
    by (vm_compute; reflexivity).
  split; [exact H1|]. split; [exact H2|]. split; [reflexivity|].
  exact (C6_series_in_input_order repeated_lines repeated_data
           repeated_dataset H1 H2).
Defined.










(** ** Blank lines *)

(** C7, as the specification states it, fails: one blank line after the
    data makes the run raise [ValueError], while the same input without it
    gives a dataset. *)
Lemma C7_counterexample :
  strip nl = EmptyString ∧
  pipeline [header_line; naive_line] = Ok [("Naive", [naive_record])] ∧
  pipeline [header_line; naive_line; nl] = Raise ValueError ∧
  pipeline [header_line; naive_line; nl] ≠ pipeline [header_line; naive_line].
Proof. split_and!; by vm_compute. Qed.

(** C7 (amended): an input whose data lines are followed by a blank (empty
    or whitespace-only) line makes the run abort, with no dataset and no
    plot; when the lines before the blank one can all be read, the
    exception is the [ValueError] that [int] raises on the empty text. *)
Theorem C7_blank_line_aborts header ls blank rest :
  strip blank = EmptyString →
  (∃ e, read_csv (header :: ls ++ blank :: rest) = Raise e ∧
        pipeline (header :: ls ++ blank :: rest) = Raise e ∧
        main (header :: ls ++ blank :: rest) = Raise e) ∧
  (Forall (fun l => well_formed l = true) ls →
   pipeline (header :: ls ++ blank :: rest) = Raise ValueError ∧
   main (header :: ls ++ blank :: rest) = Raise ValueError).
Proof.
  intros Hb. pose proof (blank_line_ValueError blank Hb) as Hrow. split.
  - destruct (read_csv_malformed header (ls ++ blank :: rest) blank)
      as (e & _ & He).
    + apply elem_of_app. right. by left.
    + by rewrite <- row_of_line_well_formed, Hrow.
    + exists e. split; [done|]. by apply pipeline_read_Raise.
  - intros Hls. apply pipeline_read_Raise.
    by apply read_csv_first_malformed.
Qed.

Lemma C7_blank_line_aborts_witness :
  strip nl = EmptyString ∧
  (∃ e, read_csv (header_line :: [naive_line; blocked_line] ++ nl :: [nl])
        = Raise e ∧
        pipeline (header_line :: [naive_line; blocked_line] ++ nl :: [nl])
        = Raise e ∧
        main (header_line :: [naive_line; blocked_line] ++ nl :: [nl])
        = Raise e) ∧
  (Forall (fun l => well_formed l = true) [naive_line; blocked_line] →
   pipeline (header_line :: [naive_line; blocked_line] ++ nl :: [nl])
   = Raise ValueError ∧
   main (header_line :: [naive_line; blocked_line] ++ nl :: [nl])
   = Raise ValueError).
Proof.
  assert (strip nl = EmptyString) as Hb by reflexivity.
  split; [exact Hb|].
  exact (C7_blank_line_aborts header_line [naive_line; blocked_line]
           nl [nl] Hb).
Defined.

(** ** Fields as text: what [strip] and [split] do to a line *)

Lemma split_single sep s t : split sep s = [t] → s = t ∧ contains sep s = false.
Proof.
  revert t. induction s as [|c s IH]; simpl; intros t.
  - by intros [= <-].
  - destruct (Ascii.eqb c sep) eqn:Hc.
    + intros [= _ H]. by apply split_not_nil in H.
    + destruct (split sep s) as [|t0 ts] eqn:Hs; [by apply split_not_nil in Hs|].
      intros [= <- ->]. by destruct (IH t0 eq_refl) as [-> ?].
Qed.

Lemma split_absent sep s : contains sep s = false → split sep s = [s].
Proof.
  induction s as [|c s IH]; simpl; [done|].
  intros [Hc Hs]%orb_false_iff. rewrite Hc, IH; done.
Qed.

Lemma split_app_sep sep t s :
  contains sep t = false →
  split sep (t ++ String sep s)%string = t :: split sep s.
Proof.
  induction t as [|c t IH]; simpl.
  - intros _. by rewrite Ascii.eqb_refl.
  - intros [Hc Ht]%orb_false_iff. by rewrite Hc, IH.
Qed.

Lemma split_join sep ts :
  ts ≠ [] → Forall (fun t => contains sep t = false) ts →
  split sep (join sep ts) = ts.
Proof.
  intros Hne Hall. induction Hall as [|t ts Ht Hts IH]; [done|].
  destruct ts as [|t' ts]; simpl.
  - by apply split_absent.
  - rewrite split_app_sep by done. f_equal. by apply IH.
Qed.

Lemma split_lstrip sep s :
  is_space sep = false → split sep (lstrip s) = strip_first (split sep s).
Proof.
  intros Hsep. induction s as [|c s IH]; simpl; [done|].
  destruct (is_space c) eqn:Hc.
  - destruct (Ascii.eqb c sep) eqn:Hcs.
    { apply Ascii.eqb_eq in Hcs. congruence. }
    rewrite IH. destruct (split sep s) as [|t ts] eqn:Hs;
      [by apply split_not_nil in Hs|]. simpl. by rewrite Hc.
  - simpl. destruct (Ascii.eqb c sep); [done|].
    destruct (split sep s) as [|t ts] eqn:Hs;
      [by apply split_not_nil in Hs|]. simpl. by rewrite Hc.
Qed.

Lemma rstrip_cons_nonempty c s :
  rstrip s ≠ EmptyString → rstrip (String c s) = String c (rstrip s).
Proof. simpl. by destruct (rstrip s). Qed.

Lemma contains_rstrip sep s :
  contains sep s = false → contains sep (rstrip s) = false.
Proof.
  induction s as [|c s IH]; simpl; [done|].
  intros [Hc Hs]%orb_false_iff. specialize (IH Hs).
  destruct (rstrip s) eqn:Hr.
  - destruct (is_space c); [done|]. simpl. by rewrite Hc.
  - simpl in *. by rewrite Hc, IH.
Qed.

Lemma split_rstrip sep s :
  is_space sep = false → split sep (rstrip s) = strip_last (split sep s).
Proof.
  intros Hsep. induction s as [|c s IH]; [done|].
  cbn [split]. destruct (Ascii.eqb c sep) eqn:Hcs.
  - apply Ascii.eqb_eq in Hcs as ->.
    assert (rstrip (String sep s) = String sep (rstrip s)) as ->.
    { simpl. destruct (rstrip s); [by rewrite Hsep|done]. }
    simpl. rewrite Ascii.eqb_refl, IH.
    destruct (split sep s) eqn:Hs; [by apply split_not_nil in Hs|done].
  - destruct (split sep s) as [|t ts] eqn:Hs;
      [by apply split_not_nil in Hs|].
    destruct ts as [|t' ts].
    + apply split_single in Hs as [-> Hno]. cbn [strip_last].
      apply split_absent, contains_rstrip. simpl. by rewrite Hcs.
    + assert (rstrip s ≠ EmptyString) as Hne.
      { intros Hr. rewrite Hr in IH. simpl in IH.
        destruct ts; discriminate. }
      rewrite rstrip_cons_nonempty by done. simpl. rewrite Hcs, IH.
      simpl. by destruct ts.
Qed.

Lemma tokens_strip_ends line :
  tokens line = strip_last (strip_first (split comma line)).
Proof.
  unfold tokens, strip. by rewrite split_rstrip, split_lstrip.
Qed.

Lemma strip_first_lookup ts i :
  strip_first ts !! i =
  (if decide (i = 0%nat) then lstrip else id) <$> ts !! i.
Proof.
  destruct ts as [|t ts]; [done|]. destruct i as [|i]; simpl; [done|].
  by destruct (ts !! i).
Qed.

Lemma length_strip_first ts : length (strip_first ts) = length ts.
Proof. by destruct ts. Qed.

Lemma length_strip_last ts : length (strip_last ts) = length ts.
Proof.
  induction ts as [|t ts IH]; [done|]. destruct ts as [|t' ts]; [done|].
  cbn [strip_last length] in *. by rewrite IH.
Qed.

Lemma strip_last_lookup ts i :
  strip_last ts !! i =
  (if decide (S i = length ts) then rstrip else id) <$> ts !! i.
Proof.
  revert i. induction ts as [|t ts IH]; intros i; [done|].
  destruct ts as [|t' ts].
  - destruct i as [|i]; simpl; [done|]. by destruct i.
  - cbn [strip_last]. destruct i as [|i]; [done|].
    rewrite !lookup_cons. rewrite IH. cbn [length].
    destruct (decide (S i = S (length ts))),
             (decide (S (S i) = S (S (length ts)))); (done || lia).
Qed.

Lemma same_but_3_5_strip raw1 raw2 :
  same_but_3_5 raw1 raw2 →
  same_but_3_5 (strip_last (strip_first raw1)) (strip_last (strip_first raw2)).
Proof.
  intros [Hlen H]. split.
  - by rewrite !length_strip_last, !length_strip_first.
  - intros i H3 H5.
    rewrite !strip_last_lookup, !strip_first_lookup, !length_strip_first.
    by rewrite Hlen, (H i H3 H5).
Qed.

Lemma same_but_3_5_insert (ts : list string) a b :
  same_but_3_5 ts (<[3%nat := a]> (<[5%nat := b]> ts)).
Proof.
  split.
  - by rewrite !length_insert.
  - intros i H3 H5. by rewrite !list_lookup_insert_ne.
Qed.

(** Replacing the text of the fields 3 and 5 of a line by comma-free text
    changes the tokens of the line at the positions 3 and 5 only. *)
Lemma tokens_with_fields_3_5 a b line :
  contains comma a = false → contains comma b = false →
  same_but_3_5 (tokens line) (tokens (with_fields_3_5 a b line)).
Proof.
  intros Ha Hb. rewrite !tokens_strip_ends. apply same_but_3_5_strip.
  unfold with_fields_3_5. rewrite split_join.
  - apply same_but_3_5_insert.
  - intros Hnil. apply (f_equal length) in Hnil.
    rewrite !length_insert in Hnil.
    by destruct (split comma line) eqn:Hs; [apply split_not_nil in Hs|].
  - apply Forall_insert; [|done]. apply Forall_insert; [|done].
    apply Forall_forall. intros t Ht. by eapply split_no_sep.
Qed.

(** ** The fields the row does not read *)

Lemma row_of_tokens_same_but_3_5 ts1 ts2 :
  same_but_3_5 ts1 ts2 → row_of_tokens ts1 = row_of_tokens ts2.
Proof.
  intros [_ H]. unfold row_of_tokens, float_field.
  rewrite !getitem_lookup.
  by rewrite (H 0%nat), (H 1%nat), (H 2%nat), (H 4%nat), (H 6%nat),
    (H 8%nat) by lia.
Qed.

Lemma result_mapM_ext2 {A B} (f : A → result B) l1 l2 :
  Forall2 (fun x1 x2 => f x1 = f x2) l1 l2 →
  result_mapM f l1 = result_mapM f l2.
Proof.
  induction 1 as [|x1 x2 l1 l2 Hx _ IH]; simpl; [done|].
  by rewrite Hx, IH.
Qed.

(** C9: two inputs whose data lines differ at most in the fields 3 and 5
    have the same outcome: the same rows, the same dataset and the same
    plots, or the same exception. *)
Theorem C9_unread_fields header lines1 lines2 :
  Forall2 (fun l1 l2 => same_but_3_5 (tokens l1) (tokens l2)) lines1 lines2 →
  read_csv (header :: lines1) = read_csv (header :: lines2) ∧
  pipeline (header :: lines1) = pipeline (header :: lines2) ∧
  main (header :: lines1) = main (header :: lines2).
Proof.
  intros H.
  assert (read_csv (header :: lines1) = read_csv (header :: lines2)) as Hr.
  { rewrite !read_csv_cons. apply result_mapM_ext2.
    eapply Forall2_impl; [exact H|]. intros l1 l2 Hl.
    by apply row_of_tokens_same_but_3_5. }
  unfold pipeline, main. by rewrite Hr.
Qed.

Lemma C9_unread_fields_witness :
  Forall2 (fun l1 l2 => same_but_3_5 (tokens l1) (tokens l2))
          [naive_line; blocked_line]
          [with_fields_3_5 "77" "x y" naive_line; blocked_line] ∧
  read_csv (header_line :: [naive_line; blocked_line]) =
  read_csv (header_line
              :: [with_fields_3_5 "77" "x y" naive_line; blocked_line]) ∧
  pipeline (header_line :: [naive_line; blocked_line]) =
  pipeline (header_line
              :: [with_fields_3_5 "77" "x y" naive_line; blocked_line]) ∧
  main (header_line :: [naive_line; blocked_line]) =
  main (header_line
          :: [with_fields_3_5 "77" "x y" naive_line; blocked_line]).
Proof.
  assert (Forall2 (fun l1 l2 => same_but_3_5 (tokens l1) (tokens l2))
            [naive_line; blocked_line]
            [with_fields_3_5 "77" "x y" naive_line; blocked_line]) as H.
  { repeat constructor; try reflexivity;
      intros i H3 H5; do 9 (destruct i as [|i]; try done). }
  split; [exact H|].
  exact (C9_unread_fields header_line _ _ H).
Defined.

(** The same on the text of the lines: whatever comma-free text is put in
    the fields 3 and 5 of the data lines, the outcome of the run is the
    same. *)
Lemma with_fields_3_5_outcome header lines1 lines2 :
  Forall2 (fun l1 l2 => ∃ a b, contains comma a = false ∧
                               contains comma b = false ∧
                               l2 = with_fields_3_5 a b l1) lines1 lines2 →
  read_csv (header :: lines1) = read_csv (header :: lines2) ∧
  pipeline (header :: lines1) = pipeline (header :: lines2) ∧
  main (header :: lines1) = main (header :: lines2).
Proof.
  intros H.
  assert (read_csv (header :: lines1) = read_csv (header :: lines2)) as Hr.
  { rewrite !read_csv_cons. apply result_mapM_ext2.
    eapply Forall2_impl; [exact H|]. intros l1 l2 (a & b & Ha & Hb & ->).
    apply row_of_tokens_same_but_3_5. by apply tokens_with_fields_3_5. }
  unfold pipeline, main. by rewrite Hr.
Qed.

(** ** The substitution of the decimal separator *)

(** C10: no token holds a comma, the substitution of the comma by a period
    leaves every token as it is, and the loop body does what it would do
    with [float(tokens[i])]. *)
Theorem C10_replace_is_identity line :
  (∀ t, t ∈ tokens line →
        contains comma t = false ∧ replace comma period t = t) ∧
  (∀ i, float_field (tokens line) i = raw_float_field (tokens line) i) ∧
  row_of_line line = raw_row_of_line line.
Proof.
  split_and!.
  - intros t Ht. split; [by eapply split_no_sep|by eapply replace_token].
  - apply float_field_raw.
  - unfold row_of_line, raw_row_of_line, row_of_tokens, raw_row_of_tokens.
    by rewrite !float_field_raw.
Qed.

(** * Further properties of the script *)

(** ** The header and the outcome of the reading loop *)

Lemma result_mapM_Raise_inv {A B} (f : A → result B) l e :
  result_mapM f l = Raise e →
  ∃ pre bad post, l = pre ++ bad :: post ∧
                  Forall (fun x => is_Ok (f x) = true) pre ∧
                  f bad = Raise e.
Proof.
  induction l as [|x l IH]; simpl; [done|].
  destruct (f x) as [y|e'] eqn:Hx; simpl.
  - destruct (result_mapM f l) as [ys|e'']; simpl; [done|].
    intros [= ->]. destruct (IH eq_refl) as (pre & bad & post & -> & Hpre & Hb).
    exists (x :: pre), bad, post. split_and!; [done| |done].
    constructor; [by rewrite Hx|done].
  - intros [= ->]. exists [], x, l. by split_and!.
Qed.

Lemma tokens_first line : ∃ t0, tokens line !! 0%nat = Some t0.
Proof.
  unfold tokens. destruct (split comma (strip line)) as [|t0 ts] eqn:Hs.
  - by apply split_not_nil in Hs.
  - by exists t0.
Qed.

Lemma row_of_tokens_long_exn ts e :
  (9 ≤ length ts)%nat → row_of_tokens ts = Raise e → e = ValueError.
Proof.
  intros Hlen.
  do 9 (destruct ts as [|? ts]; [simpl in Hlen; lia|]).
  unfold row_of_tokens, float_field. rewrite !getitem_lookup. simpl.
  repeat (match goal with
          | |- context [py_int ?t] =>
              let H := fresh in
              destruct (py_int t) eqn:H;
              [|apply py_int_exn in H; subst]
          | |- context [py_float ?t] =>
              let H := fresh in
              destruct (py_float t) eqn:H;
              [|apply py_float_exn in H; subst]
          end; simpl); by intros [= <-].
Qed.

Lemma run_script_read lines1 lines2 :
  read_csv lines1 = read_csv lines2 → run_script lines1 = run_script lines2.
Proof.
  intros H. unfold run_script, script, mbind, io_bind, lift. by rewrite H.
Qed.

Lemma main_read lines1 lines2 :
  read_csv lines1 = read_csv lines2 → main lines1 = main lines2.
Proof. intros H. unfold main. by rewrite H. Qed.

(** The text of the first line is never used: whatever stands there, also
    a data line, yields no row, and any two first lines give the same rows,
    the same plots and the same trace of calls. *)
Theorem header_never_read h1 h2 lines :
  read_csv (h1 :: lines) = result_mapM row_of_line lines ∧
  read_csv (h1 :: lines) = read_csv (h2 :: lines) ∧
  main (h1 :: lines) = main (h2 :: lines) ∧
  run_script (h1 :: lines) = run_script (h2 :: lines).
Proof.
  assert (read_csv (h1 :: lines) = read_csv (h2 :: lines)) as H
    by by rewrite !read_csv_cons.
  split_and!; [apply read_csv_cons|done|by apply main_read|
                by apply run_script_read].
Qed.

(** A line after a first line that cannot be read is never looked at: the
    run ends with the exception of that first malformed line, whatever
    follows it. *)
Theorem first_malformed_line_decides header pre bad post e :
  Forall (fun l => well_formed l = true) pre →
  row_of_line bad = Raise e →
  read_csv (header :: pre ++ bad :: post) = Raise e ∧
  main (header :: pre ++ bad :: post) = Raise e ∧
  run_script (header :: pre ++ bad :: post) = ([], Raise e).
Proof.
  intros Hpre Hbad.
  pose proof (read_csv_first_malformed header pre bad post e Hpre Hbad) as H.
  split_and!; [done|by apply pipeline_read_Raise|].
  unfold run_script, script, mbind, io_bind, lift. by rewrite H.
Qed.

Lemma first_malformed_line_decides_witness :
  Forall (fun l => well_formed l = true) [naive_line] ∧
  row_of_line short_line = Raise IndexError ∧
  read_csv (header_line :: [naive_line] ++ short_line :: [bad_size_line])
  = Raise IndexError ∧
  main (header_line :: [naive_line] ++ short_line :: [bad_size_line])
  = Raise IndexError ∧
  run_script (header_line :: [naive_line] ++ short_line :: [bad_size_line])
  = ([], Raise IndexError).
Proof.
  assert (Forall (fun l => well_formed l = true) [naive_line]) as H1
    by (repeat constructor).
  assert (row_of_line short_line = Raise IndexError) as H2 by reflexivity.
  split; [exact H1|]. split; [exact H2|].
  exact (first_malformed_line_decides header_line [naive_line] short_line
           [bad_size_line] IndexError H1 H2).
Defined.

Lemma row_of_line_IndexError_short line :
  row_of_line line = Raise IndexError → (length (tokens line) < 9)%nat.
Proof.
  intros Hrow.
  destruct (decide (length (tokens line) < 9)%nat) as [|Hlen]; [done|].
  apply row_of_tokens_long_exn in Hrow; [done|lia].
Qed.

(** The size is converted before any other field is looked up: a line
    whose first field is not an integer raises [ValueError] however many
    fields it has, and [IndexError] is raised only by a line of fewer than
    nine fields whose first field is an integer. *)
Theorem size_is_converted_first line t0 :
  tokens line !! 0%nat = Some t0 →
  (is_Ok (py_int t0) = false → row_of_line line = Raise ValueError) ∧
  (row_of_line line = Raise IndexError →
   (length (tokens line) < 9)%nat ∧ is_Ok (py_int t0) = true).
Proof.
  intros H0. split.
  - intros Hbad. unfold row_of_line, row_of_tokens.
    rewrite !getitem_lookup, H0. simpl.
    destruct (py_int t0) as [|e] eqn:Hi; [done|].
    by apply py_int_exn in Hi as ->.
  - intros Hrow. split.
    + by apply row_of_line_IndexError_short.
    + unfold row_of_line, row_of_tokens in Hrow.
      rewrite !getitem_lookup, H0 in Hrow. simpl in Hrow.
      destruct (py_int t0) as [|e] eqn:Hi; [done|].
      apply py_int_exn in Hi as ->. by simpl in Hrow.
Qed.

Lemma size_is_converted_first_witness :
  tokens "abc" !! 0%nat = Some "abc" ∧
  (is_Ok (py_int "abc") = false → row_of_line "abc" = Raise ValueError) ∧
  (row_of_line "abc" = Raise IndexError →
   (length (tokens "abc") < 9)%nat ∧ is_Ok (py_int "abc") = true).
Proof.
  assert (tokens "abc" !! 0%nat = Some "abc") as H by reflexivity.
  split; [exact H|]. exact (size_is_converted_first "abc" "abc" H).
Defined.

(** Only the tokens at the positions 0, 1, 2, 4, 6 and 8 are read: two
    token lists that agree there give the same row or the same exception,
    whatever their lengths and their other tokens. *)
Theorem only_six_positions_read ts1 ts2 :
  Forall (fun i => ts1 !! i = ts2 !! i) read_positions →
  row_of_tokens ts1 = row_of_tokens ts2.
Proof.
  intros H. unfold row_of_tokens, float_field. rewrite !getitem_lookup.
  rewrite Forall_forall in H.
  by rewrite (H 0%nat), (H 1%nat), (H 2%nat), (H 4%nat), (H 6%nat),
    (H 8%nat) by (unfold read_positions; set_solver).
Qed.

Lemma only_six_positions_read_witness :
  Forall (fun i => tokens naive_line !! i
                   = tokens "128,Naive,10,x,12,y,50,z,1,77,88" !! i)
         read_positions ∧
  row_of_tokens (tokens naive_line)
  = row_of_tokens (tokens "128,Naive,10,x,12,y,50,z,1,77,88").
Proof.
  assert (Forall (fun i => tokens naive_line !! i
                   = tokens "128,Naive,10,x,12,y,50,z,1,77,88" !! i)
            read_positions) as H by (repeat constructor).
  split; [exact H|]. exact (only_six_positions_read _ _ H).
Defined.

(** ** Whitespace around a line *)

Lemma lstrip_all_space w : all_space w = true → lstrip w = EmptyString.
Proof.
  induction w as [|c w IH]; simpl; [done|].
  intros [Hc Hw]%andb_true_iff. rewrite Hc. by apply IH.
Qed.

Lemma rstrip_all_space w : all_space w = true → rstrip w = EmptyString.
Proof.
  induction w as [|c w IH]; simpl; [done|].
  intros [Hc Hw]%andb_true_iff. by rewrite IH, Hc.
Qed.

Lemma lstrip_app_space w s :
  all_space w = true → lstrip (w ++ s)%string = lstrip s.
Proof.
  induction w as [|c w IH]; simpl; [done|].
  intros [Hc Hw]%andb_true_iff. rewrite Hc. by apply IH.
Qed.

Lemma rstrip_app_space s w :
  all_space w = true → rstrip (s ++ w)%string = rstrip s.
Proof.
  intros Hw. induction s as [|c s IH]; simpl.
  - by apply rstrip_all_space.
  - by rewrite IH.
Qed.

Lemma strip_app_space s w :
  all_space w = true → strip (s ++ w)%string = strip s.
Proof.
  intros Hw. unfold strip. induction s as [|c s IH]; simpl.
  - by rewrite lstrip_all_space.
  - destruct (is_space c); [done|].
    by apply (rstrip_app_space (String c s)).
Qed.

(** Whitespace before and after a line, its line terminator included, is
    not part of its fields: the padded line has the same tokens and gives
    the same row or the same exception. *)
Theorem padding_is_stripped w1 line w2 :
  all_space w1 = true → all_space w2 = true →
  tokens (w1 ++ line ++ w2)%string = tokens line ∧
  row_of_line (w1 ++ line ++ w2)%string = row_of_line line.
Proof.
  intros H1 H2.
  assert (tokens (w1 ++ line ++ w2)%string = tokens line) as Ht.
  { unfold tokens. f_equal. unfold strip at 1.
    rewrite lstrip_app_space by done. by apply strip_app_space. }
  split; [done|]. unfold row_of_line. by rewrite Ht.
Qed.

Lemma padding_is_stripped_witness :
  all_space "  " = true ∧
  all_space (carriage_return ++ nl)%string = true ∧
  tokens ("  " ++ "128,Naive,10,2,12,0,50,0,1"
               ++ (carriage_return ++ nl))%string
  = tokens "128,Naive,10,2,12,0,50,0,1" ∧
  row_of_line ("  " ++ "128,Naive,10,2,12,0,50,0,1"
                    ++ (carriage_return ++ nl))%string
  = row_of_line "128,Naive,10,2,12,0,50,0,1".
Proof.
  assert (all_space "  " = true) as H1 by reflexivity.
  assert (all_space (carriage_return ++ nl)%string = true) as H2
    by reflexivity.
  split; [exact H1|]. split; [exact H2|].
  exact (padding_is_stripped "  " "128,Naive,10,2,12,0,50,0,1"
           (carriage_return ++ nl)%string H1 H2).
Defined.

(** ** The plotting loops in closed form *)

Lemma column_row_keys {A} data key (field : row → A) :
  data ≠ [] → key ∈ row_keys →
  column (mk_df row_keys data) key field = Ok (field <$> data).
Proof.
  intros _ Hk. unfold column. simpl. by rewrite bool_decide_eq_true_2.
Qed.

Lemma rows_of_nonempty data m :
  m ∈ Method <$> data → rows_of data m ≠ [].
Proof.
  intros (r & -> & Hr)%list_elem_of_fmap Hnil.
  assert (r ∈ rows_of data (Method r)) as Hin
    by by apply list_elem_of_filter.
  rewrite Hnil in Hin. by apply elem_of_nil in Hin.
Qed.

Lemma series_call_Ok data y_key y_field t :
  data ≠ [] → y_key ∈ row_keys →
  (md ← method_data (pd_DataFrame data) t.1.1;
   x ← column md "Size" Size;
   y ← column md y_key y_field;
   Ok (mk_plot x y t.2 t.1.1 t.1.2))
  = Ok (series_call data y_field t).
Proof.
  intros Hd Hk. rewrite method_data_rows by done. simpl.
  unfold column. simpl.
  by rewrite (bool_decide_eq_true_2 (y_key ∈ row_keys)) by done.
Qed.

Lemma plot_loop_nonempty data y_key y_field :
  data ≠ [] → y_key ∈ row_keys →
  plot_loop (pd_DataFrame data) y_key y_field =
  Ok (series_call data y_field
        <$> zip3 (unique (Method <$> data)) colors markers).
Proof.
  intros Hd Hk. unfold plot_loop. rewrite column_Method by done. simpl.
  apply result_mapM_total. intros [[m c] k].
  apply (series_call_Ok data y_key y_field (m, c, k) Hd Hk).
Qed.

Lemma plot_loop_empty y_key y_field :
  plot_loop (pd_DataFrame []) y_key y_field = Raise KeyError.
Proof. reflexivity. Qed.

Lemma plot_each_nonempty ax data y_key y_field l tr :
  data ≠ [] → y_key ∈ row_keys →
  plot_each ax (pd_DataFrame data) y_key y_field l tr =
  (tr ++ ((fun t => E_plot ax (series_call data y_field t) 2 6) <$> l),
   Ok tt).
Proof.
  intros Hd Hk. revert tr. induction l as [|[[m c] k] l IH]; intros tr.
  - simpl. by rewrite app_nil_r.
  - pose proof (series_call_Ok data y_key y_field (m, c, k) Hd Hk) as Hs.
    simpl in Hs. cbn [plot_each]. unfold mbind, io_bind, lift, emit.
    destruct (method_data (pd_DataFrame data) m) as [md|]; [|done].
    simpl in Hs. destruct (column md "Size" Size) as [x|]; [|done].
    simpl in Hs. destruct (column md y_key y_field) as [y|]; [|done].
    simpl in Hs. injection Hs as -> ->.
    rewrite IH. csimpl. by rewrite <- app_assoc.
Qed.

Lemma plot_panel_nonempty ax data y_key y_field tr :
  data ≠ [] → y_key ∈ row_keys →
  plot_panel ax (pd_DataFrame data) y_key y_field tr =
  (tr ++ ((fun c => E_plot ax c 2 6)
          <$> (series_call data y_field
                 <$> zip3 (unique (Method <$> data)) colors markers)),
   Ok tt).
Proof.
  intros Hd Hk. unfold plot_panel, mbind, io_bind, lift.
  rewrite column_Method by done. simpl.
  rewrite plot_each_nonempty by done. by rewrite <- list_fmap_compose.
Qed.

Lemma row_keys_Compute : "Compute Time (ms)" ∈ row_keys.
Proof. unfold row_keys. set_solver. Qed.

Lemma row_keys_GFlops : "GFlops" ∈ row_keys.
Proof. unfold row_keys. set_solver. Qed.

Lemma main_nonempty lines data :
  read_csv lines = Ok data → data ≠ [] →
  main lines =
  Ok (series_call data Compute_Time
        <$> zip3 (unique (Method <$> data)) colors markers,
      series_call data GFlops
        <$> zip3 (unique (Method <$> data)) colors markers).
Proof.
  intros Hr Hd. unfold main. rewrite Hr. simpl.
  rewrite (plot_loop_nonempty data _ _ Hd row_keys_Compute). simpl.
  by rewrite (plot_loop_nonempty data _ _ Hd row_keys_GFlops).
Qed.

Lemma main_empty lines :
  read_csv lines = Ok [] → main lines = Raise KeyError.
Proof. intros Hr. unfold main. by rewrite Hr. Qed.

Lemma main_Ok_inv lines p1 p2 :
  main lines = Ok (p1, p2) →
  ∃ data, read_csv lines = Ok data ∧ data ≠ [] ∧
    p1 = series_call data Compute_Time
           <$> zip3 (unique (Method <$> data)) colors markers ∧
    p2 = series_call data GFlops
           <$> zip3 (unique (Method <$> data)) colors markers.
Proof.
  intros Hm. destruct (read_csv lines) as [data|e] eqn:Hr.
  - destruct data as [|r data].
    + by rewrite (main_empty lines Hr) in Hm.
    + rewrite (main_nonempty lines (r :: data) Hr) in Hm by done.
      injection Hm as <- <-. by exists (r :: data).
  - unfold main in Hm. by rewrite Hr in Hm.
Qed.

Lemma read_csv_Ok_nil lines :
  read_csv lines = Ok [] ↔ ∃ h, lines = [h].
Proof.
  rewrite read_csv_Ok. split.
  - intros [Hne Hf]. destruct lines as [|h rest]; [done|].
    simpl in Hf. rewrite drop_0 in Hf. apply Forall2_nil_inv_r in Hf as ->.
    by exists h.
  - intros [h ->]. split; [done|]. constructor.
Qed.

Lemma read_csv_exn header rest e :
  read_csv (header :: rest) = Raise e →
  ∃ bad, bad ∈ rest ∧ row_of_line bad = Raise e.
Proof.
  rewrite read_csv_cons.
  intros (pre & bad & post & -> & _ & Hb)%result_mapM_Raise_inv.
  exists bad. split; [|done]. apply elem_of_app. right. by left.
Qed.

(** ** When the script succeeds, and how it fails *)

Lemma pipeline_nonempty lines data :
  read_csv lines = Ok data → data ≠ [] → is_Ok (pipeline lines) = true.
Proof.
  intros Hr Hd. unfold pipeline. rewrite Hr. simpl.
  by rewrite dataset_nonempty.
Qed.

Lemma pipeline_Raise_inv lines e :
  pipeline lines = Raise e →
  read_csv lines = Raise e ∨ (read_csv lines = Ok [] ∧ e = KeyError).
Proof.
  unfold pipeline. destruct (read_csv lines) as [[|r data]|e'] eqn:Hr; simpl.
  - rewrite dataset_empty. intros [= <-]. by right.
  - by rewrite dataset_nonempty.
  - intros [= <-]. by left.
Qed.

Lemma row_of_line_ValueError_field line :
  row_of_line line = Raise ValueError → field_rejected line.
Proof.
  unfold row_of_line, row_of_tokens, float_field, field_rejected.
  generalize (tokens line). intros ts. rewrite !getitem_lookup.
  destruct (ts !! 0%nat) as [t0|]; simpl; [|done].
  destruct (py_int t0) eqn:H0; simpl; [|intros _; left; exists t0; by rewrite H0].
  destruct (ts !! 1%nat); simpl; [|done].
  destruct (ts !! 2%nat) as [t2|] eqn:E2; simpl; [|done].
  destruct (py_float (replace comma period t2)) eqn:H2; simpl;
    [|intros _; right; exists 2%nat, t2; rewrite H2; set_solver].
  destruct (ts !! 4%nat) as [t4|] eqn:E4; simpl; [|done].
  destruct (py_float (replace comma period t4)) eqn:H4; simpl;
    [|intros _; right; exists 4%nat, t4; rewrite H4; set_solver].
  destruct (ts !! 6%nat) as [t6|] eqn:E6; simpl; [|done].
  destruct (py_float (replace comma period t6)) eqn:H6; simpl;
    [|intros _; right; exists 6%nat, t6; rewrite H6; set_solver].
  destruct (ts !! 8%nat) as [t8|] eqn:E8; simpl; [|done].
  destruct (py_float (replace comma period t8)) eqn:H8; simpl;
    [done|intros _; right; exists 8%nat, t8; rewrite H8; set_solver].
Qed.

(** ** The palette *)

Lemma series_call_labels data y_field (l : list (string * string * string)) :
  plot_label <$> (series_call data y_field <$> l) = (fun t => t.1.1) <$> l.
Proof. by rewrite <- list_fmap_compose. Qed.

Lemma panel_labels data y_field :
  plot_label
    <$> (series_call data y_field
           <$> zip3 (unique (Method <$> data)) colors markers)
  = take 4 (unique (Method <$> data)).
Proof. rewrite series_call_labels. apply zip3_palette. Qed.

(** Each loop draws at most four series: the k-th call is labelled with
    the k-th distinct method in order of first occurrence and takes the
    k-th colour and the k-th marker; [zip] ends the loop after the fourth
    method. *)
Theorem palette_assignment lines data p1 p2 ps :
  read_csv lines = Ok data →
  main lines = Ok (p1, p2) →
  ps = p1 ∨ ps = p2 →
  length ps = (4 `min` length (unique (Method <$> data)))%nat ∧
  ∀ k call, ps !! k = Some call →
    unique (Method <$> data) !! k = Some (plot_label call) ∧
    colors !! k = Some (plot_color call) ∧
    markers !! k = Some (plot_marker call).
Proof.
  intros Hr (data' & Hr' & Hd & -> & ->)%main_Ok_inv Hps.
  rewrite Hr in Hr'. injection Hr' as <-.
  assert (∃ f, ps = series_call data f
                      <$> zip3 (unique (Method <$> data)) colors markers)
    as [f ->] by (destruct Hps as [->| ->]; by eexists).
  split.
  - by rewrite length_fmap, length_zip3_palette.
  - intros k call Hk. rewrite list_lookup_fmap in Hk.
    destruct (zip3 _ colors markers !! k) as [t|] eqn:Ht; [|done].
    injection Hk as <-. by apply zip3_lookup in Ht.
Qed.

Lemma palette_assignment_witness :
  read_csv sample_lines = Ok sample_data ∧
  main sample_lines = Ok (sample_plots.1, sample_plots.2) ∧
  (sample_plots.2 = sample_plots.1 ∨ sample_plots.2 = sample_plots.2) ∧
  length (sample_plots.2)
  = (4 `min` length (unique (Method <$> sample_data)))%nat ∧
  ∀ k call, (sample_plots.2) !! k = Some call →
    unique (Method <$> sample_data) !! k = Some (plot_label call) ∧
    colors !! k = Some (plot_color call) ∧
    markers !! k = Some (plot_marker call).
Proof.
  assert (read_csv sample_lines = Ok sample_data) as H1
    by (vm_compute; reflexivity).
  assert (main sample_lines = Ok (sample_plots.1, sample_plots.2)) as H2
    by (vm_compute; reflexivity).
  assert (sample_plots.2 = sample_plots.1 ∨ sample_plots.2 = sample_plots.2)
    as H3 by (right; reflexivity).
  split; [exact H1|]. split; [exact H2|]. split; [exact H3|].
  exact (palette_assignment sample_lines sample_data _ _ _ H1 H2 H3).
Defined.

(** A method whose first occurrence is the fifth or a later one among the
    distinct methods is never plotted, on either panel; each of the first
    four is plotted on both. *)
Theorem methods_beyond_palette_dropped lines data p1 p2 k m :
  read_csv lines = Ok data →
  main lines = Ok (p1, p2) →
  unique (Method <$> data) !! k = Some m →
  ((4 ≤ k)%nat → (m ∉ plot_label <$> p1) ∧ (m ∉ plot_label <$> p2)) ∧
  ((k < 4)%nat → m ∈ plot_label <$> p1 ∧ m ∈ plot_label <$> p2).
Proof.
  intros Hr (data' & Hr' & Hd & -> & ->)%main_Ok_inv Hk.
  rewrite Hr in Hr'. injection Hr' as <-. rewrite !panel_labels.
  split; intros Hlt.
  - assert (m ∉ take 4 (unique (Method <$> data))); [|done].
    intros (j & Hj)%list_elem_of_lookup_1.
    apply lookup_take_Some in Hj as [Hj Hj4].
    pose proof (NoDup_lookup _ _ _ _ (NoDup_unique _) Hj Hk). lia.
  - assert (m ∈ take 4 (unique (Method <$> data))); [|done].
    apply list_elem_of_lookup_2 with k. by rewrite lookup_take_lt.
Qed.

Lemma methods_beyond_palette_dropped_witness :
  read_csv five_method_lines = Ok five_method_data ∧
  main five_method_lines = Ok (five_method_plots.1, five_method_plots.2) ∧
  unique (Method <$> five_method_data) !! 4%nat = Some "E" ∧
  (4 ≤ 4)%nat ∧
  ("E" ∉ plot_label <$> five_method_plots.1) ∧
  ("E" ∉ plot_label <$> five_method_plots.2).
Proof.
  assert (read_csv five_method_lines = Ok five_method_data) as H1
    by (vm_compute; reflexivity).
  assert (main five_method_lines
          = Ok (five_method_plots.1, five_method_plots.2)) as H2
    by (vm_compute; reflexivity).
  assert (unique (Method <$> five_method_data) !! 4%nat = Some "E") as H3
    by (vm_compute; reflexivity).
  assert (4 ≤ 4)%nat as H4 by lia.
  split; [exact H1|]. split; [exact H2|]. split; [exact H3|].
  split; [exact H4|].
  exact (proj1 (methods_beyond_palette_dropped five_method_lines
                  five_method_data _ _ 4 "E" H1 H2 H3) H4).
Defined.

(** ** The points of a panel *)

(** The points of a series are the rows of its method in input order: the
    sizes on the horizontal axis and, row by row, the compute time (first
    panel) or the GFlops (second panel) on the vertical axis; the two lists
    have the same length and are not empty. *)
Theorem plotted_points lines data p1 p2 :
  read_csv lines = Ok data →
  main lines = Ok (p1, p2) →
  Forall (fun c => plot_x c = Size <$> rows_of data (plot_label c) ∧
                   plot_y c = Compute_Time <$> rows_of data (plot_label c) ∧
                   length (plot_x c) = length (plot_y c) ∧
                   plot_x c ≠ []) p1 ∧
  Forall (fun c => plot_x c = Size <$> rows_of data (plot_label c) ∧
                   plot_y c = GFlops <$> rows_of data (plot_label c) ∧
                   length (plot_x c) = length (plot_y c) ∧
                   plot_x c ≠ []) p2.
Proof.
  intros Hr (data' & Hr' & Hd & -> & ->)%main_Ok_inv.
  rewrite Hr in Hr'. injection Hr' as <-.
  split; apply Forall_fmap, Forall_forall; intros t Ht; simpl;
    (split_and!; [done|done|by rewrite !length_fmap|]);
    apply zip3_palette_method, elem_of_unique, rows_of_nonempty in Ht;
    by destruct (rows_of data t.1.1).
Qed.

Lemma plotted_points_witness :
  read_csv repeated_lines = Ok repeated_data ∧
  main repeated_lines = Ok (repeated_plots.1, repeated_plots.2) ∧
  repeated_plots.1 !! 0%nat
  = Some (mk_plot [128; 128] [Finite (10 # 1); Finite (10 # 1)]
                  "o" "Naive" "#2ecc71") ∧
  Forall (fun c =>
            plot_x c = Size <$> rows_of repeated_data (plot_label c) ∧
            plot_y c = Compute_Time <$> rows_of repeated_data (plot_label c) ∧
            length (plot_x c) = length (plot_y c) ∧
            plot_x c ≠ []) (repeated_plots.1) ∧
  Forall (fun c =>
            plot_x c = Size <$> rows_of repeated_data (plot_label c) ∧
            plot_y c = GFlops <$> rows_of repeated_data (plot_label c) ∧
            length (plot_x c) = length (plot_y c) ∧
            plot_x c ≠ []) (repeated_plots.2).
Proof.
  assert (read_csv repeated_lines = Ok repeated_data) as H1
    by (vm_compute; reflexivity).
  assert (main repeated_lines = Ok (repeated_plots.1, repeated_plots.2))
    as H2 by (vm_compute; reflexivity).
  split; [exact H1|]. split; [exact H2|]. split; [reflexivity|].
  exact (plotted_points repeated_lines repeated_data _ _ H1 H2).
Defined.

(** The two panels show the same series: call by call the same label,
    colour, marker and sizes. *)
Theorem panels_agree lines p1 p2 :
  main lines = Ok (p1, p2) →
  Forall2 (fun c1 c2 => plot_label c1 = plot_label c2 ∧
                        plot_color c1 = plot_color c2 ∧
                        plot_marker c1 = plot_marker c2 ∧
                        plot_x c1 = plot_x c2) p1 p2.
Proof.
  intros (data & _ & _ & -> & ->)%main_Ok_inv.
  apply Forall2_fmap, Forall2_same_length_lookup_2; [done|].
  intros k t1 t2 H1 H2. rewrite H1 in H2. by injection H2 as <-.
Qed.

Lemma panels_agree_witness :
  main sample_lines = Ok (sample_plots.1, sample_plots.2) ∧
  Forall2 (fun c1 c2 => plot_label c1 = plot_label c2 ∧
                        plot_color c1 = plot_color c2 ∧
                        plot_marker c1 = plot_marker c2 ∧
                        plot_x c1 = plot_x c2)
          (sample_plots.1) (sample_plots.2).
Proof.
  assert (main sample_lines = Ok (sample_plots.1, sample_plots.2)) as H
    by (vm_compute; reflexivity).
  split; [exact H|]. exact (panels_agree sample_lines _ _ H).
Defined.

Lemma points_panel data y_field :
  points (series_call data y_field
            <$> zip3 (unique (Method <$> data)) colors markers)
  = sum_list (group_size data <$> take 4 (unique (Method <$> data))).
Proof.
  unfold points. rewrite <- zip3_palette, <- !list_fmap_compose.
  f_equal. apply list_fmap_ext. intros k t _. simpl.
  by rewrite length_fmap.
Qed.

Lemma sum_group_size_pos data (ms : list string) m :
  m ∈ ms → m ∈ Method <$> data →
  (0 < sum_list (group_size data <$> ms))%nat.
Proof.
  intros Hm Hd. induction ms as [|m' ms IH]; [by apply elem_of_nil in Hm|].
  csimpl. apply elem_of_cons in Hm as [<-|Hm]; [|specialize (IH Hm); lia].
  pose proof (rows_of_nonempty data m Hd) as Hne.
  unfold group_size. fold (rows_of data m).
  destruct (rows_of data m); [done|simpl; lia].
Qed.

(** With at most four distinct methods every data line is a point of each
    panel; with more than four, each panel has fewer points than the file
    has data lines. *)
Theorem panel_coverage lines data p1 p2 :
  read_csv lines = Ok data →
  main lines = Ok (p1, p2) →
  ((length (unique (Method <$> data)) ≤ 4)%nat →
   points p1 = length data ∧ points p2 = length data) ∧
  ((4 < length (unique (Method <$> data)))%nat →
   (points p1 < length data)%nat ∧ (points p2 < length data)%nat).
Proof.
  intros Hr (data' & Hr' & Hd & -> & ->)%main_Ok_inv.
  rewrite Hr in Hr'. injection Hr' as <-. rewrite !points_panel.
  set (ms := unique (Method <$> data)).
  assert (sum_list (group_size data <$> ms) = length data) as Hall.
  { apply sum_group_lengths; [apply NoDup_unique|].
    intros r Hin. apply elem_of_unique. by apply list_elem_of_fmap_2. }
  split; intros Hlen.
  - by rewrite take_ge by done.
  - rewrite <- (take_drop 4 ms), fmap_app, sum_list_with_app in Hall.
    assert (0 < sum_list (group_size data <$> drop 4 ms))%nat; [|lia].
    destruct (drop 4 ms) as [|m rest] eqn:Hdrop.
    { apply (f_equal length) in Hdrop. rewrite length_drop in Hdrop.
      simpl in Hdrop. lia. }
    apply (sum_group_size_pos data (m :: rest) m); [by left|].
    apply elem_of_unique. fold ms. rewrite <- (take_drop 4 ms), Hdrop.
    apply elem_of_app. right. by left.
Qed.

Lemma panel_coverage_witness :
  read_csv five_method_lines = Ok five_method_data ∧
  main five_method_lines = Ok (five_method_plots.1, five_method_plots.2) ∧
  (4 < length (unique (Method <$> five_method_data)))%nat ∧
  length five_method_data = 6%nat ∧
  points (five_method_plots.1) = 5%nat ∧
  (points (five_method_plots.1) < length five_method_data)%nat ∧
  (points (five_method_plots.2) < length five_method_data)%nat.
Proof.
  assert (read_csv five_method_lines = Ok five_method_data) as H1
    by (vm_compute; reflexivity).
  assert (main five_method_lines
          = Ok (five_method_plots.1, five_method_plots.2)) as H2
    by (vm_compute; reflexivity).
  assert (4 < length (unique (Method <$> five_method_data)))%nat as H3
    by (vm_compute; lia).
  split; [exact H1|]. split; [exact H2|]. split; [exact H3|].
  split; [reflexivity|]. split; [reflexivity|].
  exact (proj2 (panel_coverage five_method_lines five_method_data _ _ H1 H2)
           H3).
Defined.

(** ** The columns that are read but not plotted *)

Lemma same_plotted_methods data1 data2 :
  Forall2 same_plotted data1 data2 → Method <$> data1 = Method <$> data2.
Proof.
  induction 1 as [|r1 r2 d1 d2 (_ & Hm & _) _ IH]; csimpl; [done|].
  by rewrite Hm, IH.
Qed.

Lemma same_plotted_rows_of data1 data2 m :
  Forall2 same_plotted data1 data2 →
  Forall2 same_plotted (rows_of data1 m) (rows_of data2 m).
Proof.
  unfold rows_of.
  induction 1 as [|r1 r2 d1 d2 Hr _ IH]; [constructor|].
  rewrite !filter_cons. destruct Hr as (Hs & Hm & Hc & Hg). rewrite <- Hm.
  destruct (decide (Method r1 = m)); [|done]. by constructor.
Qed.

Lemma same_plotted_series_call data1 data2 t :
  Forall2 same_plotted data1 data2 →
  series_call data1 Compute_Time t = series_call data2 Compute_Time t ∧
  series_call data1 GFlops t = series_call data2 GFlops t.
Proof.
  intros H. apply (same_plotted_rows_of _ _ t.1.1) in H.
  unfold series_call.
  assert (Size <$> rows_of data1 t.1.1 = Size <$> rows_of data2 t.1.1 ∧
          Compute_Time <$> rows_of data1 t.1.1
          = Compute_Time <$> rows_of data2 t.1.1 ∧
          GFlops <$> rows_of data1 t.1.1 = GFlops <$> rows_of data2 t.1.1)
    as (-> & -> & ->); [|done].
  induction H as [|r1 r2 d1 d2 (Hs & _ & Hc & Hg) _ (IH1 & IH2 & IH3)];
    csimpl; [done|].
  by rewrite Hs, Hc, Hg, IH1, IH2, IH3.
Qed.

(** The total time and the memory usage of a line are converted but never
    plotted: two files whose rows agree on size, method, compute time and
    GFlops give the same plots. *)
Theorem plots_ignore_total_and_memory lines1 lines2 data1 data2 :
  read_csv lines1 = Ok data1 →
  read_csv lines2 = Ok data2 →
  Forall2 same_plotted data1 data2 →
  main lines1 = main lines2.
Proof.
  intros H1 H2 Hsame. destruct data1 as [|r1 data1].
  - apply Forall2_nil_inv_l in Hsame as ->.
    by rewrite (main_empty _ H1), (main_empty _ H2).
  - destruct data2 as [|r2 data2]; [by apply Forall2_nil_inv_r in Hsame|].
    rewrite (main_nonempty _ _ H1), (main_nonempty _ _ H2) by done.
    rewrite (same_plotted_methods _ _ Hsame).
    do 2 f_equal; apply list_fmap_ext; intros k t _;
      by apply same_plotted_series_call.
Qed.

Lemma plots_ignore_total_and_memory_witness :
  read_csv sample_lines = Ok sample_data ∧
  read_csv sample_lines_other_totals = Ok sample_data_other_totals ∧
  Forall2 same_plotted sample_data sample_data_other_totals ∧
  sample_data ≠ sample_data_other_totals ∧
  main sample_lines = main sample_lines_other_totals.
Proof.
  assert (read_csv sample_lines = Ok sample_data) as H1
    by (vm_compute; reflexivity).
  assert (read_csv sample_lines_other_totals = Ok sample_data_other_totals)
    as H2 by (vm_compute; reflexivity).
  assert (Forall2 same_plotted sample_data sample_data_other_totals) as H3
    by (repeat constructor).
  split; [exact H1|]. split; [exact H2|]. split; [exact H3|].
  split; [discriminate|].
  exact (plots_ignore_total_and_memory _ _ _ _ H1 H2 H3).
Defined.

(** ** The groups as a partition of the rows *)



(** ** The trace of the calls *)

Lemma run_script_Raise lines e :
  read_csv lines = Raise e → run_script lines = ([], Raise e).
Proof.
  intros H. unfold run_script, script, mbind, io_bind, lift. by rewrite H.
Qed.

Lemma run_script_empty lines :
  read_csv lines = Ok [] →
  run_script lines =
  ([E_style_use "bmh"; E_subplots 1 2 (16, 7)], Raise KeyError).
Proof.
  intros H. unfold run_script, script, mbind, io_bind, lift. by rewrite H.
Qed.

Lemma run_script_nonempty lines data :
  read_csv lines = Ok data → data ≠ [] →
  run_script lines =
  ([E_style_use "bmh"; E_subplots 1 2 (16, 7)]
   ++ ((fun c => E_plot ax1 c 2 6)
       <$> (series_call data Compute_Time
              <$> zip3 (unique (Method <$> data)) colors markers))
   ++ [E_set_xlabel ax1 label_size 12; E_set_ylabel ax1 label_time 12;
       E_set_title ax1 title_time 14; E_set_yscale ax1 "log";
       E_grid ax1 true "both" "-" (1 # 5); E_legend ax1 10 "upper left";
       E_tick_params ax1 10]
   ++ ((fun c => E_plot ax2 c 2 6)
       <$> (series_call data GFlops
              <$> zip3 (unique (Method <$> data)) colors markers))
   ++ [E_set_xlabel ax2 label_size 12; E_set_ylabel ax2 label_gflops 12;
       E_set_title ax2 title_gflops 14;
       E_grid ax2 true "both" "-" (1 # 5); E_legend ax2 10 "upper left";
       E_tick_params ax2 10; E_tight_layout (2 # 1);
       E_savefig output_path 300 "tight" "white"; E_close],
   Ok tt).
Proof.
  intros Hr Hd. unfold run_script, script, mbind, io_bind, lift, emit.
  rewrite Hr.
  rewrite (plot_panel_nonempty ax1 data _ _ _ Hd row_keys_Compute).
  rewrite (plot_panel_nonempty ax2 data _ _ _ Hd row_keys_GFlops).
  f_equal. rewrite <- !app_assoc. done.
Qed.

Lemma run_script_Ok_inv lines tr :
  run_script lines = (tr, Ok tt) →
  ∃ data, read_csv lines = Ok data ∧ data ≠ [] ∧
          run_script lines = (tr, Ok tt).
Proof.
  intros H. destruct (read_csv lines) as [[|r data]|e] eqn:Hr.
  - by rewrite (run_script_empty lines Hr) in H.
  - by exists (r :: data).
  - by rewrite (run_script_Raise lines e Hr) in H.
Qed.

Lemma plots_on_app ax tr1 tr2 :
  plots_on ax (tr1 ++ tr2) = plots_on ax tr1 ++ plots_on ax tr2.
Proof. apply omap_app. Qed.

Lemma plots_on_same ax (ps : list plot_call) :
  plots_on ax ((fun c => E_plot ax c 2 6) <$> ps) = ps.
Proof.
  unfold plots_on. induction ps as [|c ps IH]; csimpl; [done|].
  rewrite decide_True by done. simpl. by f_equal.
Qed.

Lemma plots_on_other ax ax' (ps : list plot_call) :
  ax' ≠ ax → plots_on ax ((fun c => E_plot ax' c 2 6) <$> ps) = [].
Proof.
  intros Hne. unfold plots_on. induction ps as [|c ps IH]; csimpl; [done|].
  by rewrite decide_False by done.
Qed.

Lemma Forall_plot_events (P : event → Prop) ax (ps : list plot_call) :
  (∀ c, P (E_plot ax c 2 6)) →
  Forall P ((fun c => E_plot ax c 2 6) <$> ps).
Proof. intros H. apply Forall_fmap, Forall_forall. intros c _. apply H. Qed.


(** Reading and grouping, which is all the script does outside matplotlib,
    complete exactly when the file has a first line, at least one more
    line, and every line after the first is well formed; plotting loops
    that complete and a run that returns are such cases. *)
Theorem grouping_succeeds_iff lines :
  (is_Ok (pipeline lines) = true ↔
   ∃ header rest, lines = header :: rest ∧ rest ≠ [] ∧
                  Forall (fun l => well_formed l = true) rest) ∧
  (is_Ok (main lines) = true → is_Ok (pipeline lines) = true) ∧
  (∀ tr, run_script lines = (tr, Ok tt) → is_Ok (pipeline lines) = true).
Proof.
  split_and!.
  - split.
    + intros Hp. destruct (read_csv lines) as [[|r data]|e] eqn:Hr.
      * unfold pipeline in Hp. by rewrite Hr in Hp.
      * apply read_csv_Ok in Hr as [Hne Hf].
        destruct lines as [|header rest]; [done|]. exists header, rest.
        simpl in Hf. rewrite drop_0 in Hf. split_and!; [done| |].
        -- intros ->. by apply Forall2_nil_inv_l in Hf.
        -- clear Hne Hp.
           induction Hf as [|l r' rest' data' Hl _ IH]; constructor.
           ++ by rewrite <- row_of_line_well_formed, Hl.
           ++ done.
      * unfold pipeline in Hp. by rewrite Hr in Hp.
    + intros (header & rest & -> & Hne & Hall).
      destruct (read_csv_all_well_formed header rest Hall)
        as (data & Hr & Hf).
      apply (pipeline_nonempty _ data Hr).
      intros ->. by apply Forall2_nil_inv_r in Hf.
  - destruct (main lines) as [[p1 p2]|] eqn:Hm; [intros _|done].
    apply main_Ok_inv in Hm as (data & Hr & Hd & _).
    by apply (pipeline_nonempty _ data).
  - intros tr (data & Hr & Hd & _)%run_script_Ok_inv.
    by apply (pipeline_nonempty _ data).
Qed.

(** When reading or grouping raises, it is in one of three ways:
    [KeyError] for a file of one line, [IndexError] for an empty file or a
    data line of fewer than nine fields, [ValueError] for a data line with
    a field that [int] or [float] rejects. *)
Theorem grouping_exception_cases lines e :
  pipeline lines = Raise e →
  (e = KeyError ∧ ∃ header, lines = [header]) ∨
  (e = IndexError ∧
   (lines = [] ∨
    ∃ l, l ∈ drop 1 lines ∧ (length (tokens l) < 9)%nat)) ∨
  (e = ValueError ∧ ∃ l, l ∈ drop 1 lines ∧ field_rejected l).
Proof.
  intros [Hr|[Hr ->]]%pipeline_Raise_inv.
  - right. destruct lines as [|header rest].
    + rewrite read_csv_nil in Hr. injection Hr as <-. left. by split; [|left].
    + apply read_csv_exn in Hr as (bad & Hin & Hb). simpl. rewrite drop_0.
      destruct (row_of_line_exn bad e Hb) as [->| ->].
      * right. split; [done|]. exists bad. split; [done|].
        by apply row_of_line_ValueError_field.
      * left. split; [done|]. right. exists bad. split; [done|].
        by apply row_of_line_IndexError_short.
  - left. split; [done|]. by apply read_csv_Ok_nil.
Qed.

Lemma grouping_exception_cases_witness :
  pipeline [header_line; naive_line; bad_size_line] = Raise ValueError ∧
  ((ValueError = KeyError ∧
    ∃ header, [header_line; naive_line; bad_size_line] = [header]) ∨
   (ValueError = IndexError ∧
    ([header_line; naive_line; bad_size_line] = [] ∨
     ∃ l, l ∈ drop 1 [header_line; naive_line; bad_size_line] ∧
          (length (tokens l) < 9)%nat)) ∨
   (ValueError = ValueError ∧
    ∃ l, l ∈ drop 1 [header_line; naive_line; bad_size_line] ∧
         field_rejected l)).
Proof.
  assert (pipeline [header_line; naive_line; bad_size_line]
          = Raise ValueError) as H by reflexivity.
  split; [exact H|]. exact (grouping_exception_cases _ _ H).
Defined.

(** In a run that returns, both plotting loops completed, the [plot]
    calls made on the first panel are those of the first loop and the
    calls made on the second panel those of the second loop, in order, and
    every one of them has line width 2 and marker size 6. *)
Theorem script_draws_main_plots lines tr :
  run_script lines = (tr, Ok tt) →
  ∃ p1 p2, main lines = Ok (p1, p2) ∧
           plots_on ax1 tr = p1 ∧ plots_on ax2 tr = p2 ∧
           Forall (fun ev => match ev with
                             | E_plot _ _ lw ms => lw = 2 ∧ ms = 6
                             | _ => True
                             end) tr.
Proof.
  intros (data & Hr & Hd & H)%run_script_Ok_inv.
  pose proof (run_script_nonempty lines data Hr Hd) as Hc. rewrite H in Hc.
  apply (f_equal fst) in Hc. cbn [fst] in Hc. subst tr.
  eexists _, _. split; [by apply (main_nonempty lines data)|].
  split_and!.
  - rewrite !plots_on_app, plots_on_same, plots_on_other by done.
    simpl. by rewrite app_nil_r.
  - rewrite !plots_on_app, plots_on_same, plots_on_other by done.
    simpl. by rewrite app_nil_r.
  - repeat (apply Forall_app; split);
      try (by apply Forall_plot_events); by repeat constructor.
Qed.

Lemma script_draws_main_plots_witness :
  run_script sample_lines = (sample_trace, Ok tt) ∧
  main sample_lines = Ok (sample_plots.1, sample_plots.2) ∧
  ∃ p1 p2, main sample_lines = Ok (p1, p2) ∧
           plots_on ax1 sample_trace = p1 ∧
           plots_on ax2 sample_trace = p2 ∧
           Forall (fun ev => match ev with
                             | E_plot _ _ lw ms => lw = 2 ∧ ms = 6
                             | _ => True
                             end) sample_trace.
Proof.
  assert (run_script sample_lines = (sample_trace, Ok tt)) as H
    by (vm_compute; reflexivity).
  split; [exact H|]. split; [vm_compute; reflexivity|].
  exact (script_draws_main_plots sample_lines sample_trace H).
Defined.

(** When reading or grouping raises, the run raises without a [plot] call
    and without saving a figure; when it is the reading loop that raises,
    no call to matplotlib is made at all and the run ends with that
    exception. *)
Theorem no_plot_when_grouping_raises lines e tr res :
  pipeline lines = Raise e →
  run_script lines = (tr, res) →
  is_Ok res = false ∧
  plots_on ax1 tr = [] ∧ plots_on ax2 tr = [] ∧
  Forall (fun ev => is_savefig ev = false) tr ∧
  (read_csv lines = Raise e → tr = [] ∧ res = Raise e).
Proof.
  intros [Hr|[Hr ->]]%pipeline_Raise_inv H.
  - rewrite (run_script_Raise lines e Hr) in H. injection H as <- <-.
    by split_and!.
  - rewrite (run_script_empty lines Hr) in H. injection H as <- <-.
    split_and!; [done|done|done|by repeat constructor|by rewrite Hr].
Qed.

Lemma no_plot_when_grouping_raises_witness :
  pipeline [header_line] = Raise KeyError ∧
  run_script [header_line]
  = ([E_style_use "bmh"; E_subplots 1 2 (16, 7)], Raise KeyError) ∧
  is_Ok (Raise KeyError : result unit) = false ∧
  plots_on ax1 [E_style_use "bmh"; E_subplots 1 2 (16, 7)] = [] ∧
  plots_on ax2 [E_style_use "bmh"; E_subplots 1 2 (16, 7)] = [] ∧
  Forall (fun ev => is_savefig ev = false)
         [E_style_use "bmh"; E_subplots 1 2 (16, 7)] ∧
  (read_csv [header_line] = Raise KeyError →
   [E_style_use "bmh"; E_subplots 1 2 (16, 7)] = [] ∧
   (Raise KeyError : result unit) = Raise KeyError).
Proof.
  assert (pipeline [header_line] = Raise KeyError) as H1 by reflexivity.
  assert (run_script [header_line]
          = ([E_style_use "bmh"; E_subplots 1 2 (16, 7)], Raise KeyError))
    as H2 by reflexivity.
  split; [exact H1|]. split; [exact H2|].
  exact (no_plot_when_grouping_raises _ _ _ _ H1 H2).
Defined.

(** A run that returns saves the figure once, to [output_path] at 300 dpi,
    as its last call but one, and then closes it: every other call comes
    before. *)
Theorem image_saved_last lines tr :
  run_script lines = (tr, Ok tt) →
  ∃ tr', tr = tr' ++ [E_savefig output_path 300 "tight" "white"; E_close] ∧
         Forall (fun ev => is_savefig ev = false) tr' ∧
         E_close ∉ tr'.
Proof.
  intros (data & Hr & Hd & H)%run_script_Ok_inv.
  rewrite (run_script_nonempty lines data Hr Hd) in H. injection H as <-.
  set (plots1 := (fun c => E_plot ax1 c 2 6) <$> _).
  set (plots2 := (fun c => E_plot ax2 c 2 6) <$> _).
  exists ([E_style_use "bmh"; E_subplots 1 2 (16, 7)] ++ plots1
          ++ [E_set_xlabel ax1 label_size 12; E_set_ylabel ax1 label_time 12;
              E_set_title ax1 title_time 14; E_set_yscale ax1 "log";
              E_grid ax1 true "both" "-" (1 # 5);
              E_legend ax1 10 "upper left"; E_tick_params ax1 10]
          ++ plots2
          ++ [E_set_xlabel ax2 label_size 12;
              E_set_ylabel ax2 label_gflops 12;
              E_set_title ax2 title_gflops 14;
              E_grid ax2 true "both" "-" (1 # 5);
              E_legend ax2 10 "upper left"; E_tick_params ax2 10;
              E_tight_layout (2 # 1)]).
  split_and!.
  - by rewrite <- !app_assoc.
  - repeat (apply Forall_app; split);
      try (by apply Forall_plot_events); by repeat constructor.
  - rewrite !elem_of_app. unfold plots1, plots2.
    rewrite !list_elem_of_fmap.
    intros [H|[(c & H & _)|[H|[(c & H & _)|H]]]]; try done;
      repeat (apply elem_of_cons in H as [H|H]; [done|]);
      by apply elem_of_nil in H.
Qed.

Lemma image_saved_last_witness :
  run_script sample_lines = (sample_trace, Ok tt) ∧
  ∃ tr', sample_trace
         = tr' ++ [E_savefig output_path 300 "tight" "white"; E_close] ∧
         Forall (fun ev => is_savefig ev = false) tr' ∧
         E_close ∉ tr'.
Proof.
  assert (run_script sample_lines = (sample_trace, Ok tt)) as H
    by (vm_compute; reflexivity).
  split; [exact H|]. exact (image_saved_last sample_lines sample_trace H).
Defined.



(** ** The plots as a function of the groups *)

(** The plots are made from the groups: the run plots exactly when the
    grouping exists, and the k-th call of each panel shows the k-th group
    (its method as the label, the sizes of its rows against their compute
    times or GFlops) with the k-th colour and marker, for the first four
    groups. *)
Theorem plots_show_first_groups lines p1 p2 :
  main lines = Ok (p1, p2) →
  ∃ ds, pipeline lines = Ok ds ∧
    p1 = (fun t => mk_plot (Size <$> t.1.1.2) (Compute_Time <$> t.1.1.2)
                           t.2 t.1.1.1 t.1.2) <$> zip3 ds colors markers ∧
    p2 = (fun t => mk_plot (Size <$> t.1.1.2) (GFlops <$> t.1.1.2)
                           t.2 t.1.1.1 t.1.2) <$> zip3 ds colors markers.
Proof.
  intros (data & Hr & Hd & -> & ->)%main_Ok_inv.
  eexists. split.
  - unfold pipeline. rewrite Hr. simpl. by apply dataset_nonempty.
  - by rewrite zip3_fmap_l, zip3_take_palette, <- !list_fmap_compose.
Qed.

Lemma plots_show_first_groups_witness :
  main sample_lines = Ok (sample_plots.1, sample_plots.2) ∧
  pipeline sample_lines = Ok sample_dataset ∧
  ∃ ds, pipeline sample_lines = Ok ds ∧
    sample_plots.1
    = (fun t => mk_plot (Size <$> t.1.1.2) (Compute_Time <$> t.1.1.2)
                        t.2 t.1.1.1 t.1.2) <$> zip3 ds colors markers ∧
    sample_plots.2
    = (fun t => mk_plot (Size <$> t.1.1.2) (GFlops <$> t.1.1.2)
                        t.2 t.1.1.1 t.1.2) <$> zip3 ds colors markers.
Proof.
  assert (main sample_lines = Ok (sample_plots.1, sample_plots.2)) as H
    by (vm_compute; reflexivity).
  split; [exact H|]. split; [vm_compute; reflexivity|].
  exact (plots_show_first_groups sample_lines _ _ H).
Defined.

(** ** The method label *)

(** The method of a row is the text between the first and the second comma
    of its line exactly as written, leading and trailing spaces included:
    [strip] touches the two ends of the line only. *)
Theorem method_taken_verbatim line r :
  row_of_line line = Ok r →
  split comma line !! 1%nat = Some (Method r).
Proof.
  intros (t0 & t2 & t4 & t6 & t8 & _ & _ & H1 & _ & _ & _ & _ & _ & _ & H8 & _)
    %row_of_line_fields.
  apply lookup_lt_Some in H8.
  rewrite tokens_strip_ends in H1, H8.
  rewrite length_strip_last, length_strip_first in H8.
  rewrite strip_last_lookup, strip_first_lookup, length_strip_first in H1.
  rewrite decide_False in H1 by lia. rewrite decide_False in H1 by lia.
  destruct (split comma line !! 1%nat); by simplify_eq/=.
Qed.

Lemma method_taken_verbatim_witness :
  row_of_line "128, Naive ,10,2,12,0,50,0,1"
  = Ok (mk_row 128 " Naive " (Finite (10 # 1)) (Finite (12 # 1))
               (Finite (50 # 1)) (Finite (1 # 1))) ∧
  split comma "128, Naive ,10,2,12,0,50,0,1" !! 1%nat = Some " Naive ".
Proof.
  assert (row_of_line "128, Naive ,10,2,12,0,50,0,1"
          = Ok (mk_row 128 " Naive " (Finite (10 # 1)) (Finite (12 # 1))
                       (Finite (50 # 1)) (Finite (1 # 1)))) as H
    by reflexivity.
  split; [exact H|]. exact (method_taken_verbatim _ _ H).
Defined.
